(** * KPI dashboard: aggregation pipeline, import mapper and chart zoom

    A shallow embedding of the pure parts of [src/index.tsx] (and of the
    second version of [statusByContainersData] found in
    [src/unnamed/part_000]) together with the properties the specification
    states about them.

    Conventions of the embedding.
    - JavaScript numbers that the code only ever uses as whole numbers
      (time values in milliseconds, container counts, array indices, day
      differences) are integers of [Z]; a quotient that the code rounds
      ([Math.ceil], [Math.floor], [Math.round]) is computed exactly.
    - JavaScript strings are [string]s holding the UTF-8 encoding of the
      text.  [String.prototype.includes] with an ASCII needle gives the same
      answer on the UTF-8 bytes as on the UTF-16 code units.
    - An optional property ([field?: T]) is an [option]; a missing property
      and a property holding [undefined] are both [None].
    - A JavaScript object used as a dictionary, a [Map] and a [Set] keep
      their insertion order: they are association lists ([Obj]); keys are
      assumed not to collide with the members of [Object.prototype].
    - A [forEach] loop that mutates an accumulator is a left fold.
    - What the platform provides (case mapping, Unicode normalisation, the
      [Date] parser and its local-time accessors) is the class [Host]; a
      reference instance for ASCII/Latin-1 text and ISO dates in UTC is
      given at the end of the definitions and is used for the examples. *)

From Stdlib Require Import ZArith Lia Ascii String.
From stdpp Require Import base option list strings pretty sorting gmap.

Local Open Scope Z_scope.

(** ** JavaScript objects as insertion-ordered dictionaries *)

Module Obj.

Fixpoint get {V : Type} (k : string) (o : list (string * V)) : option V :=
  match o with
  | [] => None
  | (k', v) :: o' => if String.eqb k k' then Some v else get k o'
  end.

(** [o[k] = v]: an existing property keeps its position, a new one is
    appended. *)
Fixpoint set {V : Type} (k : string) (v : V) (o : list (string * V))
  : list (string * V) :=
  match o with
  | [] => [(k, v)]
  | (k', v') :: o' =>
      if String.eqb k k' then (k', v) :: o' else (k', v') :: set k v o'
  end.

(** [o[k].f = ...]: in-place change of the value of an existing property. *)
Fixpoint alter {V : Type} (f : V -> V) (k : string) (o : list (string * V))
  : list (string * V) :=
  match o with
  | [] => []
  | (k', v) :: o' =>
      if String.eqb k k' then (k', f v) :: o' else (k', v) :: alter f k o'
  end.

Definition hasOwnProperty {V : Type} (o : list (string * V)) (k : string)
  : bool :=
  match get k o with Some _ => true | None => false end.

Definition keys {V : Type} (o : list (string * V)) : list string := o.*1.

End Obj.

(** ** Strings *)

(** [s.includes(needle)] *)
Fixpoint includes (s needle : string) : bool :=
  String.prefix needle s ||
  match s with
  | EmptyString => false
  | String _ s' => includes s' needle
  end.

Definition byte_of (c : ascii) : N := N_of_ascii c.

(** Removal of the combining diacritical marks U+0300..U+036F (the
    [replace] call of [normalizeTerminalName]); in UTF-8 they are the
    two-byte sequences CC 80 .. CC BF and CD 80 .. CD AF. *)
Definition is_combining_mark (c1 c2 : ascii) : bool :=
  ((byte_of c1 =? 204)%N && (128 <=? byte_of c2)%N && (byte_of c2 <=? 191)%N) ||
  ((byte_of c1 =? 205)%N && (128 <=? byte_of c2)%N && (byte_of c2 <=? 175)%N).

Fixpoint stripCombining (s : string) : string :=
  match s with
  | EmptyString => EmptyString
  | String c1 s' =>
      match s' with
      | String c2 rest =>
          if is_combining_mark c1 c2 then stripCombining rest
          else String c1 (stripCombining s')
      | EmptyString => String c1 EmptyString
      end
  end.

(** The white space of the regular expression class [\s], as UTF-8:
    TAB, LF, VT, FF, CR, SPACE, U+00A0, U+1680, U+2000..U+200A, U+2028,
    U+2029, U+202F, U+205F, U+3000 and U+FEFF. [ws_prefix s] is the number
    of bytes of the white-space character [s] starts with, 0 if none. *)
Definition ws_prefix (s : string) : nat :=
  match s with
  | String c1 s1 =>
      let b1 := byte_of c1 in
      if ((9 <=? b1)%N && (b1 <=? 13)%N) || (b1 =? 32)%N then 1%nat
      else match s1 with
      | String c2 s2 =>
          let b2 := byte_of c2 in
          if (b1 =? 194)%N && (b2 =? 160)%N then 2%nat
          else match s2 with
          | String c3 _ =>
              let b3 := byte_of c3 in
              if (b1 =? 225)%N && (b2 =? 154)%N && (b3 =? 128)%N then 3%nat
              else if (b1 =? 226)%N && (b2 =? 128)%N &&
                      (((128 <=? b3)%N && (b3 <=? 138)%N) || (b3 =? 168)%N ||
                       (b3 =? 169)%N || (b3 =? 175)%N) then 3%nat
              else if (b1 =? 226)%N && (b2 =? 129)%N && (b3 =? 159)%N then 3%nat
              else if (b1 =? 227)%N && (b2 =? 128)%N && (b3 =? 128)%N then 3%nat
              else if (b1 =? 239)%N && (b2 =? 187)%N && (b3 =? 191)%N then 3%nat
              else 0%nat
          | EmptyString => 0%nat
          end
      | EmptyString => 0%nat
      end
  | EmptyString => 0%nat
  end.



(** [value.split(/[/.-]/)] *)
Definition is_date_separator (c : ascii) : bool :=
  (byte_of c =? 47)%N || (byte_of c =? 46)%N || (byte_of c =? 45)%N.

Fixpoint splitDate_go (cur : string) (s : string) : list string :=
  match s with
  | EmptyString => [cur]
  | String c s' =>
      if is_date_separator c then cur :: splitDate_go EmptyString s'
      else splitDate_go (cur +:+ String c EmptyString) s'
  end.

Definition splitDate (s : string) : list string := splitDate_go EmptyString s.

Definition digit_of (c : ascii) : option Z :=
  let b := byte_of c in
  if (48 <=? b)%N && (b <=? 57)%N then Some (Z.of_N b - 48) else None.

Fixpoint skipWhitespace (fuel : nat) (s : string) : string :=
  match fuel with
  | O => s
  | S fuel' =>
      match ws_prefix s with
      | O => s
      | S k =>
          skipWhitespace fuel'
            (String.substring (S k) (String.length s - S k) s)
      end
  end.

(** The digits at the head of [s], read in base 10 after [acc]. *)
Fixpoint readDigits (acc : Z) (s : string) : Z :=
  match s with
  | String c s' =>
      match digit_of c with
      | Some d => readDigits (10 * acc + d) s'
      | None => acc
      end
  | EmptyString => acc
  end.

Definition startsWithDigit (s : string) : bool :=
  match s with
  | String c _ => match digit_of c with Some _ => true | None => false end
  | EmptyString => false
  end.

(** [parseInt(s, 10)], [None] when it is [NaN]. *)
Definition parseInt (s : string) : option Z :=
  match skipWhitespace (String.length s) s with
  | String c s' =>
      if (byte_of c =? 45)%N then
        if startsWithDigit s' then Some (- readDigits 0 s') else None
      else if (byte_of c =? 43)%N then
        if startsWithDigit s' then Some (readDigits 0 s') else None
      else if startsWithDigit (String c s') then Some (readDigits 0 (String c s'))
      else None
  | EmptyString => None
  end.

(** ** Values of spreadsheet cells and of untyped properties *)

Inductive JsVal : Type :=
| JUndefined
| JNull
| JBool (b : bool)
| JNumber (n : Z)
| JString (s : string).


(** Truthiness of an optional string property. *)
Definition truthyStr (o : option string) : bool :=
  match o with
  | Some s => negb (String.eqb s EmptyString)
  | None => false
  end.

(** [n || d] for an optional number. *)
Definition orNum (o : option Z) (d : Z) : Z :=
  match o with
  | Some n => if n =? 0 then d else n
  | None => d
  end.

(** ** The platform *)

Class Host : Type := {
  (** [String.prototype.toLowerCase] *)
  toLowerCase : string -> string;
  (** [String.prototype.normalize("NFD")] *)
  normalizeNFD : string -> string;
  (** [new Date(s).getTime()], [None] when it is [NaN], as it is for the
      empty string *)
  Date_parse : string -> option Z;
  Date_parse_empty : Date_parse EmptyString = None;
  (** [getFullYear], [getMonth] and [getDate] of the date with the given
      time value, in the local time zone *)
  getFullYear : Z -> Z;
  getMonth : Z -> Z;
  getMonth_range : forall t, 0 <= getMonth t < 12;
  getDate : Z -> Z;
  (** [new Date(year, month, day).getTime()]: local midnight *)
  Date_local : Z -> Z -> Z -> Z;
  (** [toISOString().split('T')[0]] of the date with the given time value *)
  toISODate : Z -> string
}.

(** ** Data model *)

(** The properties of [Shipment] read by the aggregation pipeline. *)
Record Shipment : Type := {
  id : string;
  blAwb : string;
  typeOfCargo : option string;
  shipmentType : option string;
  fcl : option Z;
  incoterm : option string;
  bondedWarehouse : option string;
  actualEtd : option string;
  actualEta : option string;
  cargoPresenceDate : option string;
  diRegistrationDate : option string;
  greenChannelOrDeliveryAuthorizedDate : option string;
  nfIssueDate : option string;
  firstTruckDelivery : option string;
  uniqueDi : option string;
  di : option string;
  parametrization : option string;
  status : option string
}.

(** [KpiFilters]; [None] is the string ['All']. *)
Record KpiFilters : Type := {
  cargo : list string;
  year : option Z;
  month : option Z
}.

(** An entry of a doughnut or bar chart (the colour is left out). *)
Record ChartEntry : Type := {
  label : string;
  value : Z;
  shipments : list Shipment
}.

Definition len {A : Type} (l : list A) : Z := Z.of_nat (length l).

(** A point of a line chart: [{value, shipments}]. *)
Record LinePoint : Type := {
  pointValue : Z;
  pointShipments : list Shipment
}.

(** ** Utility functions *)

(** [Math.ceil(a / b)] for a positive divisor. *)
Definition Math_ceil_div (a b : Z) : Z := - ((- a) / b).

(** [Math.round(a / b)] for a positive divisor: [Math.round] is
    [floor(x + 0.5)]. *)
Definition Math_round_div (a b : Z) : Z := (2 * a + b) / (2 * b).

Definition msPerDay : Z := 1000 * 60 * 60 * 24.

Section Utilities.
Context {host : Host}.

Definition calculateDaysBetween (start end_ : option string) : option Z :=
  match start, end_ with
  | Some s, Some e =>
      if negb (truthyStr start) || negb (truthyStr end_) then None
      else
        match Date_parse s, Date_parse e with
        | Some startTime, Some endTime =>
            let diffTime := Z.abs (endTime - startTime) in
            Some (Math_ceil_div diffTime msPerDay)
        | _, _ => None
        end
  | _, _ => None
  end.

(** The local [lowerName] of [normalizeTerminalName]. *)
Definition lowerNameOf (name : string) : string :=
  stripCombining (normalizeNFD (toLowerCase name)).

Definition normalizeTerminalName (name : option string) : string :=
  match name with
  | None => "N/A"
  | Some name =>
      if String.eqb name EmptyString then "N/A"
      else
        let lowerName := lowerNameOf name in
        if includes lowerName "tecon" then "TECON"
        else if includes lowerName "teca" then "TECA"
        else if includes lowerName "clia" && includes lowerName "emporio"
             then "CLIA Empório"
        else if includes lowerName "intermaritima" then "Intermaritima"
        else if includes lowerName "tpc" then "TPC"
        else name
  end.

Definition excelSerialDateToJSDate (serial : Z) : Z :=
  let utc_days := serial - 25569 in
  let utc_value := utc_days * 86400 in
  let date_info := utc_value * 1000 in
  Date_local (getFullYear date_info) (getMonth date_info) (getDate date_info).

(** [new Date(value)] of the last resort of [parseDateFromExcel]: a
    value that is not a string is converted to a number. *)
Definition Date_of_value (value : JsVal) : option Z :=
  match value with
  | JString s => Date_parse s
  | JBool b => Some (if b then 1 else 0)
  | JNumber n => Some n
  | JNull => Some 0
  | JUndefined => None
  end.

Definition parseDateFromExcel (value : JsVal) : string :=
  match value with
  | JNull | JUndefined => EmptyString
  | JString EmptyString => EmptyString
  | JNumber n => toISODate (excelSerialDateToJSDate n)
  | _ =>
      let fallback :=
        match Date_of_value value with
        | Some parsedDate => toISODate parsedDate
        | None => EmptyString
        end in
      match value with
      | JString str =>
          match splitDate str with
          | [p0; p1; p2] =>
              match parseInt p0, parseInt p1, parseInt p2 with
              | Some day, Some month1, Some year =>
                  let month := month1 - 1 in
                  let fullYear :=
                    if year <? 100
                    then (if 50 <? year then 1900 + year else 2000 + year)
                    else year in
                  toISODate (Date_local fullYear month day)
              | _, _, _ => fallback
              end
          | _ => fallback
          end
      | _ => fallback
      end
  end.

End Utilities.

(** [Array.prototype.slice(start, end)] *)
Definition Array_slice {A : Type} (start end_ : Z) (l : list A) : list A :=
let k := if start <? 0 then Z.max (len l + start) 0 else Z.min start (len l) in
let final := if end_ <? 0 then Z.max (len l + end_) 0 else Z.min end_ (len l) in
take (Z.to_nat (final - k)) (drop (Z.to_nat k) l).

(** ** Line chart: the zoom window *)

Module LineChart.

Record ViewRange : Type := { start : Z; end_ : Z }.

Inductive ZoomAction : Type := ZoomIn | ZoomOut | ResetZoom.

Section Zoom.
Variable data : list LinePoint.

(** The initial state, also set by the effect that runs when [data]
    changes and by [handleResetZoom]. *)
Definition initialViewRange : ViewRange :=
  {| start := 0; end_ := if 0 <? len data then len data - 1 else 0 |}.

Definition handleZoomIn (prev : ViewRange) : ViewRange :=
  let currentRange := end_ prev - start prev in
  if currentRange <? 2 then prev
  else
    let center := start prev + currentRange / 2 in
    let newRange := Z.max 2 (Math_ceil_div (2 * currentRange) 3) in
    let newStart := Z.max 0 (center - newRange / 2) in
    let newEnd := Z.min (len data - 1) (newStart + newRange - 1) in
    {| start := newStart; end_ := newEnd |}.

Definition handleZoomOut (prev : ViewRange) : ViewRange :=
  let currentRange := end_ prev - start prev in
  if len data - 1 <=? currentRange then prev
  else
    let center := start prev + currentRange / 2 in
    let newRange := Z.min (len data) ((3 * currentRange) / 2 + 1) in
    let newStart := Z.max 0 (center - newRange / 2) in
    let newEnd := Z.min (len data - 1) (newStart + newRange - 1) in
    let newStart' :=
      if newEnd - newStart + 1 <? newRange
      then Z.max 0 (newEnd - newRange + 1) else newStart in
    {| start := newStart'; end_ := newEnd |}.

Definition handleResetZoom (_ : ViewRange) : ViewRange := initialViewRange.

Definition step (prev : ViewRange) (a : ZoomAction) : ViewRange :=
  match a with
  | ZoomIn => handleZoomIn prev
  | ZoomOut => handleZoomOut prev
  | ResetZoom => handleResetZoom prev
  end.

(** The window after a sequence of button presses. *)
Definition run (actions : list ZoomAction) : ViewRange :=
  foldl step initialViewRange actions.

(** Number of points of the series inside the window. *)
Definition points (v : ViewRange) : Z := end_ v - start v + 1.

Definition visibleData (v : ViewRange) : list LinePoint :=
Array_slice (start v) (end_ v + 1) data.

End Zoom.

End LineChart.

(** ** The dashboard filter

    The three KPI dashboards repeat the same predicate in their
    [filteredShipments]; they differ in the date property they read.
    [filters.cargo] is declared [string[]], so [!filters.cargo] is false. *)

Section Filter.
Context {host : Host}.

(** [filters.cargo.includes(s.typeOfCargo)] *)
Definition cargoIncludes (cargo : list string) (t : option string) : bool :=
  match t with
  | Some c => existsb (String.eqb c) cargo
  | None => false
  end.

Definition matchesFilters (dateField : Shipment -> option string)
    (filters : KpiFilters) (s : Shipment) : bool :=
  let cargoMatch :=
    (len (cargo filters) =? 0) || cargoIncludes (cargo filters) (typeOfCargo s) in
  match dateField s with
  | None => false
  | Some d =>
      if negb (truthyStr (Some d)) then false
      else
        match Date_parse d with
        | None => false
        | Some shipmentDate =>
            let yearMatch :=
              match year filters with
              | None => true
              | Some y => getFullYear shipmentDate =? y
              end in
            let monthMatch :=
              match month filters with
              | None => true
              | Some m => getMonth shipmentDate =? m
              end in
            cargoMatch && yearMatch && monthMatch
        end
  end.

End Filter.

(** [s.shipmentType === 'FCL' || s.shipmentType === 'FCL/LCL'] *)
Definition isContainerLoad (s : Shipment) : bool :=
  match shipmentType s with
  | Some t => String.eqb t "FCL" || String.eqb t "FCL/LCL"
  | None => false
  end.

(** [Set.prototype.add] on an insertion-ordered set. *)
Definition setAdd (x : string) (l : list string) : list string :=
  if existsb (String.eqb x) l then l else l ++ [x].

Definition str_le (a b : string) : Prop := String.leb a b = true.

#[global] Instance str_le_dec : RelDecision str_le.
Proof. intros a b. unfold str_le. apply _. Defined.

(** [Array.prototype.sort()] without a comparator, on strings. *)
Definition sortStrings (l : list string) : list string := merge_sort str_le l.

(** [Array.prototype.sort(compare)], a stable sort: an element goes behind
    the elements placed before it that [compare] does not put after it. *)
Fixpoint sortInsert {A : Type} (compare : A -> A -> Z) (x : A) (l : list A)
  : list A :=
match l with
| [] => [x]
| y :: l' =>
    if compare y x <=? 0 then y :: sortInsert compare x l' else x :: y :: l'
end.

Definition Array_sort {A : Type} (compare : A -> A -> Z) (l : list A) : list A :=
foldl (fun sorted x => sortInsert compare x sorted) [] l.

(** [Set.prototype.add] on an insertion-ordered set of numbers. *)
Definition setAddZ (x : Z) (l : list Z) : list Z :=
if existsb (Z.eqb x) l then l else l ++ [x].

(** [array.filter(Boolean)] on optional strings. *)
Definition filterTruthy (l : list (option string)) : list string :=
omap (fun o => if truthyStr o then o else None) l.

(** [s.status === st] *)
Definition statusIs (st : string) (s : Shipment) : bool :=
match status s with
| Some st' => String.eqb st' st
| None => false
end.

(** [if (key && groups.hasOwnProperty(key)) groups[key].push(s)] *)
Definition pushIfOwn (key : option string) (s : Shipment)
    (groups : list (string * list Shipment)) : list (string * list Shipment) :=
match key with
| Some k =>
    if truthyStr (Some k) && Obj.hasOwnProperty groups k
    then Obj.alter (fun l => l ++ [s]) k groups
    else groups
| None => groups
end.

(** [Object.entries(groups).map(([label, shipments]) => ({label, value:
    shipments.length, shipments}))] *)
Definition groupEntries (groups : list (string * list Shipment)) : list ChartEntry :=
map (fun '(label, shipments) =>
       {| label := label; value := len shipments; shipments := shipments |})
    groups.

(** ** Cargos in Transit *)

Module CargosInTransitDashboard.

Record VolumeCell : Type := { volume : Z; cellShipments : list Shipment }.

Record Dataset : Type := {
  datasetLabel : string;
  data : list Z;
  terminals : list string;
  datasetShipments : list (list Shipment)
}.

Record StackData : Type := { labels : list string; datasets : list Dataset }.

Definition monthLabels : list string :=
  ["Julho"; "Agosto"; "Setembro"; "Outubro"; "Novembro"; "Dezembro"].

Definition shipmentsData (filteredShipments : list Shipment) : list ChartEntry :=
groupEntries
  (foldl (fun groups s => pushIfOwn (incoterm s) s groups)
         [("CIF", []); ("FOB", []); ("DAP", [])] filteredShipments).

Definition shipmentStatusStep (groups : list (string * list Shipment))
    (s : Shipment) : list (string * list Shipment) :=
let groups1 :=
  if statusIs "DOCUMENT REVIEW" s
  then Obj.alter (fun l => l ++ [s]) "Doc Review" groups else groups in
let groups2 :=
  if statusIs "IN TRANSIT" s
  then Obj.alter (fun l => l ++ [s]) "In Transit" groups1 else groups1 in
if statusIs "AT THE PORT" s || statusIs "CARGO READY" s
then Obj.alter (fun l => l ++ [s]) "At Port" groups2 else groups2.

Definition shipmentStatusData (filteredShipments : list Shipment) : list ChartEntry :=
groupEntries
  (foldl shipmentStatusStep
         [("Doc Review", []); ("In Transit", []); ("At Port", [])]
         filteredShipments).

Definition docStatusData (filteredShipments : list Shipment) : list ChartEntry :=
groupEntries
  (foldl (fun groups s => Obj.alter (fun l => l ++ [s]) "Approved" groups)
         [("Approved", []); ("Not Approved", [])] filteredShipments).

Section defs.
Context {host : Host}.

Definition filteredShipments (shipments : list Shipment)
    (filters : KpiFilters) : list Shipment :=
  List.filter (matchesFilters actualEta filters) shipments.

(** The [containerVolume] of one record. *)
Definition containerVolume (s : Shipment) : Z :=
  if isContainerLoad s then orNum (fcl s) 0 else 0.

(** [months[monthName][terminal]] gets the record added. *)
Definition addToCell (terminal : string) (containerVolume : Z)
    (s : Shipment) (cells : list (string * VolumeCell))
  : list (string * VolumeCell) :=
  let cells1 :=
    match Obj.get terminal cells with
    | Some _ => cells
    | None => Obj.set terminal {| volume := 0; cellShipments := [] |} cells
    end in
  Obj.alter (fun c => {| volume := volume c + containerVolume;
                         cellShipments := cellShipments c ++ [s] |})
            terminal cells1.

(** The body of the [forEach]; the state is [(months, terminals)]. *)
Definition volumeStep
    (st : list (string * list (string * VolumeCell)) * list string)
    (s : Shipment)
  : list (string * list (string * VolumeCell)) * list string :=
  let '(months, terminals) := st in
  match actualEta s with
  | None => st
  | Some eta =>
      if negb (truthyStr (Some eta)) then st
      else
        match Date_parse eta with
        | None => st
        | Some date =>
            let monthIndex := getMonth date in
            if 6 <=? monthIndex then
              match monthLabels !! Z.to_nat (monthIndex - 6) with
              | None => st (* not reached: [getMonth] is below 12 *)
              | Some monthName =>
                  let terminal := normalizeTerminalName (bondedWarehouse s) in
                  let terminals' := setAdd terminal terminals in
                  let containerVolume := containerVolume s in
                  if 0 <? containerVolume then
                    (Obj.alter (addToCell terminal containerVolume s)
                               monthName months,
                     terminals')
                  else (months, terminals')
              end
            else st
        end
  end.

Definition volumeInit
  : list (string * list (string * VolumeCell)) * list string :=
  (foldl (fun months m => Obj.set m [] months) [] monthLabels, []).

(** [months[m][terminal]] *)
Definition cellAt (months : list (string * list (string * VolumeCell)))
    (m terminal : string) : option VolumeCell :=
  match Obj.get m months with
  | Some cells => Obj.get terminal cells
  | None => None
  end.

Definition cargoVolumeDataStack (filteredShipments : list Shipment)
  : StackData :=
  let '(months, terminals) :=
    foldl volumeStep volumeInit filteredShipments in
  let sortedTerminals := sortStrings terminals in
  {| labels := monthLabels;
     datasets :=
       map (fun terminal =>
              {| datasetLabel := terminal;
                 data := map (fun m => orNum (volume <$> cellAt months m terminal) 0)
                             monthLabels;
                 terminals := map (fun _ => terminal) monthLabels;
                 datasetShipments :=
                   map (fun m => default [] (cellShipments <$> cellAt months m terminal))
                       monthLabels |})
           sortedTerminals |}.

(** The bar of a terminal in a month of the chart: 0 where the chart
    has no dataset for the terminal. *)
Definition volumeOf (d : StackData) (terminal : string) (monthIdx : nat) : Z :=
  match List.find (fun ds => String.eqb (datasetLabel ds) terminal) (datasets d) with
  | Some ds => default 0 (data ds !! monthIdx)
  | None => 0
  end.

End defs.

End CargosInTransitDashboard.

(** ** Performance *)

Module PerformanceDashboard.

(** One element of the local array [months] of [lineChartData]. *)
Record MonthBucket : Type := {
  clearance : list Z;
  delivery : list Z;
  operation : list Z;
  nf : list Z;
  clearanceShipments : list Shipment;
  deliveryShipments : list Shipment;
  operationShipments : list Shipment;
  nfShipments : list Shipment
}.

Record LineChartData : Type := {
  lineLabels : list string;
  clearanceSeries : list LinePoint;
  deliverySeries : list LinePoint;
  operationSeries : list LinePoint;
  nfSeries : list LinePoint
}.

Definition emptyBucket : MonthBucket :=
  {| clearance := []; delivery := []; operation := []; nf := [];
     clearanceShipments := []; deliveryShipments := [];
     operationShipments := []; nfShipments := [] |}.

Definition pushClearance (d : option Z) (s : Shipment) (b : MonthBucket) : MonthBucket :=
  match d with
  | Some v =>
      {| clearance := clearance b ++ [v]; delivery := delivery b;
         operation := operation b; nf := nf b;
         clearanceShipments := clearanceShipments b ++ [s];
         deliveryShipments := deliveryShipments b;
         operationShipments := operationShipments b;
         nfShipments := nfShipments b |}
  | None => b
  end.

Definition pushDelivery (d : option Z) (s : Shipment) (b : MonthBucket) : MonthBucket :=
  match d with
  | Some v =>
      {| clearance := clearance b; delivery := delivery b ++ [v];
         operation := operation b; nf := nf b;
         clearanceShipments := clearanceShipments b;
         deliveryShipments := deliveryShipments b ++ [s];
         operationShipments := operationShipments b;
         nfShipments := nfShipments b |}
  | None => b
  end.

Definition pushOperation (d : option Z) (s : Shipment) (b : MonthBucket) : MonthBucket :=
  match d with
  | Some v =>
      {| clearance := clearance b; delivery := delivery b;
         operation := operation b ++ [v]; nf := nf b;
         clearanceShipments := clearanceShipments b;
         deliveryShipments := deliveryShipments b;
         operationShipments := operationShipments b ++ [s];
         nfShipments := nfShipments b |}
  | None => b
  end.

Definition pushNf (d : option Z) (s : Shipment) (b : MonthBucket) : MonthBucket :=
  match d with
  | Some v =>
      {| clearance := clearance b; delivery := delivery b;
         operation := operation b; nf := nf b ++ [v];
         clearanceShipments := clearanceShipments b;
         deliveryShipments := deliveryShipments b;
         operationShipments := operationShipments b;
         nfShipments := nfShipments b ++ [s] |}
  | None => b
  end.

(** [avg] followed by [Math.round]: the mean of a non-empty array,
    rounded, and 0 for an empty one. *)
Definition roundedAvg (arr : list Z) : Z :=
  if len arr =? 0 then 0
  else Math_round_div (foldl Z.add 0 arr) (len arr).

Definition monthNames : list string :=
  ["Janeiro"; "Fevereiro"; "Março"; "Abril"; "Maio"; "Junho"; "Julho";
   "Agosto"; "Setembro"; "Outubro"; "Novembro"; "Dezembro"].

Definition incotermData (filteredShipments : list Shipment) : list ChartEntry :=
groupEntries
  (foldl (fun groups s => pushIfOwn (incoterm s) s groups)
         [("DAP", []); ("CIF", []); ("FOB", [])] filteredShipments).

(** The one dataset of [disPerMonth]. *)
Record DisPerMonth : Type := {
  disLabels : list string;
  disData : list Z;
  disShipments : list (list Shipment)
}.

Section defs.
Context {host : Host}.

Definition filteredShipments (shipments : list Shipment)
    (filters : KpiFilters) : list Shipment :=
  List.filter (matchesFilters diRegistrationDate filters) shipments.

(** The [Map] [uniqueDIs] of a channel gets the record unless its DI
    is already a key. *)
Definition diParamStep (groups : list (string * list (string * Shipment)))
    (s : Shipment) : list (string * list (string * Shipment)) :=
  match di s, parametrization s with
  | Some d, Some p =>
      if truthyStr (Some d) && truthyStr (Some p) && Obj.hasOwnProperty groups p
      then Obj.alter (fun uniqueDIs =>
                        if Obj.hasOwnProperty uniqueDIs d then uniqueDIs
                        else Obj.set d s uniqueDIs) p groups
      else groups
  | _, _ => groups
  end.

Definition diParamData (filteredShipments : list Shipment) : list ChartEntry :=
  let groups :=
    foldl diParamStep [("Green", []); ("Yellow", []); ("Red", [])]
          filteredShipments in
  map (fun '(label, uniqueDIs) =>
         {| label := label; value := len uniqueDIs;
            shipments := uniqueDIs.*2 |})
      groups.

(** The body of the [forEach] of [disPerMonth]. *)
Definition disPerMonthStep (monthlyUniqueDIs : list (list (string * Shipment)))
    (shipment : Shipment) : list (list (string * Shipment)) :=
match di shipment, diRegistrationDate shipment with
| Some d, Some registered =>
    if truthyStr (Some d) && truthyStr (Some registered) then
      match Date_parse registered with
      | None => monthlyUniqueDIs
      | Some date =>
          let month := getMonth date in
          if (0 <=? month) && (month <? 12) then
            alter (fun uniqueDIs =>
                     if Obj.hasOwnProperty uniqueDIs d then uniqueDIs
                     else Obj.set d shipment uniqueDIs)
                  (Z.to_nat month) monthlyUniqueDIs
          else monthlyUniqueDIs
      end
    else monthlyUniqueDIs
| _, _ => monthlyUniqueDIs
end.

Definition disPerMonth (filteredShipments : list Shipment) : DisPerMonth :=
let monthlyUniqueDIs :=
  foldl disPerMonthStep (replicate 12 []) filteredShipments in
{| disLabels := monthNames;
   disData := map (fun m => len m) monthlyUniqueDIs;
   disShipments := map (fun m => m.*2) monthlyUniqueDIs |}.

(** The body of the [forEach] of [lineChartData]. *)
Definition lineStep (months : list MonthBucket) (s : Shipment)
  : list MonthBucket :=
  match diRegistrationDate s with
  | None => months
  | Some d =>
      if negb (truthyStr (Some d)) then months
      else
        match Date_parse d with
        | None => months
        | Some date =>
            let month := getMonth date in
            if (0 <=? month) && (month <? 12) then
              let clearance :=
                calculateDaysBetween (cargoPresenceDate s)
                  (greenChannelOrDeliveryAuthorizedDate s) in
              let delivery :=
                calculateDaysBetween (greenChannelOrDeliveryAuthorizedDate s)
                  (firstTruckDelivery s) in
              let operation :=
                calculateDaysBetween (actualEta s)
                  (greenChannelOrDeliveryAuthorizedDate s) in
              let nf :=
                calculateDaysBetween (greenChannelOrDeliveryAuthorizedDate s)
                  (nfIssueDate s) in
              alter (fun b => pushNf nf s
                                (pushOperation operation s
                                   (pushDelivery delivery s
                                      (pushClearance clearance s b))))
                    (Z.to_nat month) months
            else months
        end
  end.

(** [s.uniqueDi !== 'Yes'] *)
Definition notUniqueDi (s : Shipment) : bool :=
  match uniqueDi s with
  | Some u => negb (String.eqb u "Yes")
  | None => true
  end.

Definition lineChartData (filteredShipments : list Shipment) : LineChartData :=
  let shipmentsForPerf := List.filter notUniqueDi filteredShipments in
  let months := foldl lineStep (replicate 12 emptyBucket) shipmentsForPerf in
  {| lineLabels := monthNames;
     clearanceSeries :=
       map (fun m => {| pointValue := roundedAvg (clearance m);
                        pointShipments := clearanceShipments m |}) months;
     deliverySeries :=
       map (fun m => {| pointValue := roundedAvg (delivery m);
                        pointShipments := deliveryShipments m |}) months;
     operationSeries :=
       map (fun m => {| pointValue := roundedAvg (operation m);
                        pointShipments := operationShipments m |}) months;
     nfSeries :=
       map (fun m => {| pointValue := roundedAvg (nf m);
                        pointShipments := nfShipments m |}) months |}.

End defs.

End PerformanceDashboard.

(** ** Operation Status *)

Module OperationStatusDashboard.

Record CountGroup : Type := { groupShipments : list Shipment; count : Z }.

Record Warehouse : Type := { warehouseShipments : list Shipment; total : Z }.

(** [ImportStatus.CargoReady] *)
Definition CargoReady : string := "CARGO READY".

(** [containerCount]: the same expression in [statusByContainersData]
    and in [containerVolumeByWarehouseData]. *)
Definition containerCount (s : Shipment) : Z :=
  if isContainerLoad s then orNum (fcl s) 1 else 0.

Definition statusByBLsStep (groups : list (string * list Shipment))
    (s : Shipment) : list (string * list Shipment) :=
  match status s with
  | None => groups
  | Some st =>
      if negb (truthyStr (Some st)) then groups
      else if Obj.hasOwnProperty groups st
      then Obj.alter (fun l => l ++ [s]) st groups
      else if String.eqb st "CARGO READY"
      then Obj.alter (fun l => l ++ [s]) "AT THE PORT" groups
      else groups
  end.

Definition statusByBLsData (filteredShipments : list Shipment) : list ChartEntry :=
  let groups :=
    foldl statusByBLsStep
          [("IN TRANSIT", []); ("AT THE PORT", []); ("DI REGISTERED", []);
           ("CARGO CLEARED", [])]
          filteredShipments in
  map (fun '(label, shipments) =>
         {| label := label; value := len shipments; shipments := shipments |})
      groups.

Definition addToGroup (containerCount : Z) (s : Shipment) (g : CountGroup) : CountGroup :=
  {| groupShipments := groupShipments g ++ [s];
     count := count g + containerCount |}.

Definition statusByContainersStep (groups : list (string * CountGroup))
    (s : Shipment) : list (string * CountGroup) :=
  let containerCount := containerCount s in
  match status s with
  | None => groups
  | Some st =>
      if truthyStr (Some st) && Obj.hasOwnProperty groups st
      then Obj.alter (addToGroup containerCount s) st groups
      else if String.eqb st CargoReady
      then Obj.alter (addToGroup containerCount s) "AT THE PORT" groups
      else groups
  end.

(** [statusByContainersData] for a given list of buckets: the two
    versions of the function differ only in that list. *)
Definition statusByContainersOver (buckets : list string)
    (filteredShipments : list Shipment) : list ChartEntry :=
  let groups :=
    foldl statusByContainersStep
          (map (fun b => (b, {| groupShipments := []; count := 0 |})) buckets)
          filteredShipments in
  map (fun '(label, data) =>
         {| label := label; value := count data;
            shipments := groupShipments data |})
      groups.


(** The version of [src/unnamed/part_000], with a fifth bucket. *)
Definition statusByContainersData_part_000 : list Shipment -> list ChartEntry :=
  statusByContainersOver
    ["IN TRANSIT"; "AT THE PORT"; "DI REGISTERED"; "CARGO CLEARED";
     "CARGO DELIVERED"].

Section defs.
Context {host : Host}.

Definition filteredShipments (shipments : list Shipment)
    (filters : KpiFilters) : list Shipment :=
  List.filter (matchesFilters actualEta filters) shipments.

Definition warehouseStep (warehouses : list (string * Warehouse))
    (s : Shipment) : list (string * Warehouse) :=
  let warehouse := normalizeTerminalName (bondedWarehouse s) in
  if negb (String.eqb warehouse "N/A") then
    let warehouses1 :=
      match Obj.get warehouse warehouses with
      | Some _ => warehouses
      | None => Obj.set warehouse {| warehouseShipments := []; total := 0 |}
                        warehouses
      end in
    let containerCount := containerCount s in
    Obj.alter (fun w => {| warehouseShipments := warehouseShipments w ++ [s];
                           total := total w + containerCount |})
              warehouse warehouses1
  else warehouses.

Definition containerVolumeByWarehouseData (filteredShipments : list Shipment)
  : list ChartEntry :=
  let warehouses := foldl warehouseStep [] filteredShipments in
  map (fun '(label, data) =>
         {| label := label; value := total data;
            shipments := warehouseShipments data |})
      warehouses.

End defs.

End OperationStatusDashboard.

(** The value a chart shows for a bucket: 0 where it has no such bucket. *)
Definition valueOf (entries : list ChartEntry) (bucket : string) : Z :=
  match List.find (fun e => String.eqb (label e) bucket) entries with
  | Some e => value e
  | None => 0
  end.

(** The records behind a bucket of a chart. *)
Definition shipmentsOf (entries : list ChartEntry) (bucket : string) : list Shipment :=
  match List.find (fun e => String.eqb (label e) bucket) entries with
  | Some e => shipments e
  | None => []
  end.

(** ** Brokerage KPIs *)

Module BrokerageKPIsPage.

Record ChannelGroup : Type := {
  channelShipments : list Shipment;
  uniqueDIs : gset string
}.

Record ChannelEntry : Type := {
  channelLabel : string;
  channelValue : Z;
  secondaryValue : Z;
  entryShipments : list Shipment
}.


Definition diChannelStep (groups : list (string * ChannelGroup))
    (s : Shipment) : list (string * ChannelGroup) :=
  match parametrization s with
  | None => groups
  | Some p =>
      if truthyStr (Some p) && Obj.hasOwnProperty groups p then
        Obj.alter
          (fun group =>
             {| channelShipments := channelShipments group ++ [s];
                uniqueDIs :=
                  match di s with
                  | Some d =>
                      if truthyStr (Some d) then {[ d ]} ∪ uniqueDIs group
                      else uniqueDIs group
                  | None => uniqueDIs group
                  end |})
          p groups
      else groups
  end.

Definition emptyChannel : ChannelGroup :=
  {| channelShipments := []; uniqueDIs := ∅ |}.

Definition diChannelData (filteredShipments : list Shipment)
  : list ChannelEntry :=
  let groups :=
    foldl diChannelStep
          [("Green", emptyChannel); ("Yellow", emptyChannel);
           ("Red", emptyChannel)]
          filteredShipments in
  map (fun '(label, data) =>
         {| channelLabel := label;
            channelValue := len (channelShipments data);
            secondaryValue := Z.of_nat (size (uniqueDIs data));
            entryShipments := channelShipments data |})
      groups.

(** The entry of a channel; the three channels are always present. *)
Definition channelEntry (entries : list ChannelEntry) (channel : string)
  : option ChannelEntry :=
  List.find (fun e => String.eqb (channelLabel e) channel) entries.

(** [totalDIs] of [kpiMetrics]. *)
Definition totalDIs (filteredShipments : list Shipment) : Z :=
len (foldl (fun set d => setAdd d set) []
           (filterTruthy (map di filteredShipments))).





Section defs.
Context {host : Host}.

(** [clearanceTimes] of [kpiMetrics]: [map] then [filter]. *)
Definition clearanceTimes (filteredShipments : list Shipment) : list Z :=
  omap (fun days => days)
       (map (fun s => calculateDaysBetween (cargoPresenceDate s)
                        (greenChannelOrDeliveryAuthorizedDate s))
            filteredShipments).

Definition totalClearanceTime (filteredShipments : list Shipment) : Z :=
  foldl Z.add 0 (clearanceTimes filteredShipments).



End defs.

End BrokerageKPIsPage.

(** ** Spreadsheet import *)

Module UploadModal.

Section defs.
Context {host : Host}.








End defs.

End UploadModal.

(** ** The KPI page and its filter sidebar *)

Module KPIsPage.

(** The calls [onFilterChange(filterType, value)]. *)
Inductive FilterChange : Type :=
| ChangeCargo (value : list string)
| ChangeYear (value : option Z)
| ChangeMonth (value : option Z).

(** [setFilters(prev => ({ ...prev, [filterType]: value }))] *)
Definition handleFilterChange (prev : KpiFilters) (change : FilterChange)
  : KpiFilters :=
match change with
| ChangeCargo value => {| cargo := value; year := year prev; month := month prev |}
| ChangeYear value => {| cargo := cargo prev; year := value; month := month prev |}
| ChangeMonth value => {| cargo := cargo prev; year := year prev; month := value |}
end.

Section defs.
Context {host : Host}.

(** The year of the ETA of a record, [null] when there is none; the
    [filter] drops [null] and the year 0. *)
Definition etaYear (s : Shipment) : option Z :=
match actualEta s with
| None => None
| Some d =>
    if negb (truthyStr (Some d)) then None
    else match Date_parse d with
         | None => None
         | Some date => Some (getFullYear date)
         end
end.

Definition keepYear (y : option Z) : option Z :=
match y with
| Some y => if y =? 0 then None else Some y
| None => None
end.

(** [currentYear] is [new Date().getFullYear()]. *)
Definition latestYear (currentYear : Z) (shipments : list Shipment) : Z :=
let years := omap keepYear (map etaYear shipments) in
match years with
| [] => currentYear
| y :: ys => foldl Z.max y ys
end.

(** The filters after the effect that follows [latestYear]. *)
Definition initialFilters (currentYear : Z) (shipments : list Shipment)
  : KpiFilters :=
{| cargo := []; year := Some (latestYear currentYear shipments); month := None |}.

End defs.

End KPIsPage.

Module KPIFilterSidebar.

Inductive DateSourceField : Type := ActualEta | DiRegistrationDate.

Definition dateStringOf (dateSourceField : DateSourceField) (s : Shipment)
  : option string :=
match dateSourceField with
| DiRegistrationDate => diRegistrationDate s
| ActualEta => actualEta s
end.

Definition cargoTypes (shipments : list Shipment) : list string :=
sortStrings
  (foldl (fun types t => setAdd t types) []
         (filterTruthy (map typeOfCargo shipments))).

Definition handleCargoClick (activeFilters : KpiFilters) (cargoType : string)
  : KPIsPage.FilterChange :=
let currentSelection := cargo activeFilters in
let newSelection :=
  if existsb (String.eqb cargoType) currentSelection
  then List.filter (fun c => negb (String.eqb c cargoType)) currentSelection
  else currentSelection ++ [cargoType] in
KPIsPage.ChangeCargo newSelection.

Definition handleClearCargo : KPIsPage.FilterChange := KPIsPage.ChangeCargo [].

Definition handleYearClick (year : option Z) : KPIsPage.FilterChange :=
KPIsPage.ChangeYear year.

Definition handleMonthClick (month : option Z) : KPIsPage.FilterChange :=
KPIsPage.ChangeMonth month.

Section defs.
Context {host : Host}.

Definition yearOf (dateSourceField : DateSourceField) (s : Shipment) : option Z :=
match dateStringOf dateSourceField s with
| None => None
| Some dateString =>
    if negb (truthyStr (Some dateString)) then None
    else match Date_parse dateString with
         | None => None
         | Some date => Some (getFullYear date)
         end
end.

Definition years (dateSourceField : DateSourceField) (shipments : list Shipment)
  : list Z :=
let yearSet :=
  foldl (fun set y => setAddZ y set) []
        (omap KPIsPage.keepYear (map (yearOf dateSourceField) shipments)) in
Array_sort (fun a b => b - a) yearSet.

End defs.

End KPIFilterSidebar.

(** ** Chart components *)

Module DoughnutChart.

Definition total (data : list ChartEntry) : Z :=
foldl (fun sum item => sum + value item) 0 data.

(** The same expression gives [sortedData] in [HorizontalBarChart]. *)
Definition sortedData (data : list ChartEntry) : list ChartEntry :=
Array_sort (fun a b => value b - value a)
           (List.filter (fun d => 0 <? value d) data).

End DoughnutChart.

Module VerticalBarChart.

(** The chart shows "No data" instead of bars. *)
Definition noData (data : CargosInTransitDashboard.StackData) : bool :=
len (CargosInTransitDashboard.datasets data) =? 0.

Definition totals (data : CargosInTransitDashboard.StackData) : list Z :=
imap (fun i _ =>
        foldl (fun sum ds =>
                 sum + orNum (CargosInTransitDashboard.data ds !! i) 0)
              0 (CargosInTransitDashboard.datasets data))
     (CargosInTransitDashboard.labels data).

End VerticalBarChart.

(** ** Dashboard and imports pages *)

Module DashboardPage.

Definition statusConfig : list (string * list string) :=
[("Order Placed", ["ORDER PLACED"]);
 ("In Transit", ["IN TRANSIT"]);
 ("At Port", ["AT THE PORT"; "CARGO READY"]);
 ("Delivered", ["CARGO DELIVERED"])].

(** [s.status && config.statuses.includes(s.status)] *)
Definition statusIn (statuses : list string) (s : Shipment) : bool :=
match status s with
| Some st => negb (String.eqb st EmptyString) && existsb (String.eqb st) statuses
| None => false
end.

Definition shipmentStatusData (shipments : list Shipment) : list ChartEntry :=
map (fun '(label, statuses) =>
       let matching := List.filter (statusIn statuses) shipments in
       {| label := label; value := len matching; shipments := matching |})
    statusConfig.

(** The [statusFilter] handed to [onNavigate('Imports', ...)]. *)
Definition handleSegmentClick (label : string) : string :=
let statusFilter := "All" in
let statusFilter := if String.eqb label "Order Placed" then "ORDER PLACED" else statusFilter in
let statusFilter := if String.eqb label "In Transit" then "IN TRANSIT" else statusFilter in
let statusFilter := if String.eqb label "At Port" then "AT THE PORT" else statusFilter in
let statusFilter := if String.eqb label "Delivered" then "CARGO DELIVERED" else statusFilter in
statusFilter.

End DashboardPage.

(** A shipment together with its [description], which the search of the
    imports page reads. *)
Record ImportRow : Type := {
  shipment : Shipment;
  description : option string
}.

Module ImportsPage.

Section defs.
Context {host : Host}.

(** [field && field.toLowerCase().includes(searchTerm.toLowerCase())] *)
Definition fieldMatches (field : option string) (searchTerm : string) : bool :=
match field with
| Some f =>
    negb (String.eqb f EmptyString) &&
    includes (toLowerCase f) (toLowerCase searchTerm)
| None => false
end.

Definition matchesRow (searchTerm statusFilter : string) (s : ImportRow) : bool :=
let matchesSearch :=
  String.eqb searchTerm EmptyString ||
  fieldMatches (Some (blAwb (shipment s))) searchTerm ||
  fieldMatches (description s) searchTerm ||
  fieldMatches (typeOfCargo (shipment s)) searchTerm in
let matchesStatus :=
  String.eqb statusFilter "All" || statusIs statusFilter (shipment s) in
matchesSearch && matchesStatus.

Definition filteredShipments (shipments : list ImportRow)
    (searchTerm statusFilter : string) : list ImportRow :=
List.filter (matchesRow searchTerm statusFilter) shipments.

End defs.

End ImportsPage.

(** ** Writing the upload *)

Module App.

(** [blAwb.replace(/\//g, '-')] *)
Fixpoint replaceSlashes (s : string) : string :=
match s with
| EmptyString => EmptyString
| String c s' =>
    String (if (byte_of c =? 47)%N then ascii_of_N 45 else c) (replaceSlashes s')
end.



End App.

(** ** A reference platform

    Case mapping and canonical decomposition for ASCII and the Latin-1
    letters (U+00C0..U+00FF), dates of the form [YYYY-MM-DD] (which
    ECMAScript reads as UTC midnight) and the accessors of a host whose
    local time zone is UTC. *)

Module Reference.

Definition asciiOf (n : N) : ascii := ascii_of_N n.

Fixpoint toLowerCase_go (afterC3 : bool) (s : string) : string :=
  match s with
  | EmptyString => EmptyString
  | String c s' =>
      let b := byte_of c in
      if afterC3 then
        String (if (128 <=? b)%N && (b <=? 158)%N && negb (b =? 151)%N
                then asciiOf (b + 32) else c)
               (toLowerCase_go false s')
      else if (65 <=? b)%N && (b <=? 90)%N
      then String (asciiOf (b + 32)) (toLowerCase_go false s')
      else String c (toLowerCase_go (b =? 195)%N s')
  end.

Definition toLowerCase (s : string) : string := toLowerCase_go false s.

(** Canonical decomposition of the lower-case letter U+00E0 + [k]: the
    base letter and the second byte of the combining mark (after CC). *)
Definition decomposeLower (k : N) : option (N * N) :=
  match k with
  | 0 => Some (97, 128) | 1 => Some (97, 129) | 2 => Some (97, 130)
  | 3 => Some (97, 131) | 4 => Some (97, 136) | 5 => Some (97, 138)
  | 7 => Some (99, 167)
  | 8 => Some (101, 128) | 9 => Some (101, 129) | 10 => Some (101, 130)
  | 11 => Some (101, 136)
  | 12 => Some (105, 128) | 13 => Some (105, 129) | 14 => Some (105, 130)
  | 15 => Some (105, 136)
  | 17 => Some (110, 131)
  | 18 => Some (111, 128) | 19 => Some (111, 129) | 20 => Some (111, 130)
  | 21 => Some (111, 131) | 22 => Some (111, 136)
  | 25 => Some (117, 128) | 26 => Some (117, 129) | 27 => Some (117, 130)
  | 28 => Some (117, 136)
  | 29 => Some (121, 129) | 31 => Some (121, 136)
  | _ => None
  end%N.

(** Decomposition of the character C3 [b]. *)
Definition decompose (b : N) : option (N * N) :=
  if (160 <=? b)%N && (b <=? 191)%N then decomposeLower (b - 160)
  else if (128 <=? b)%N && (b <=? 158)%N then
    match decomposeLower (b - 128) with
    | Some (base, mark) => Some ((base - 32)%N, mark)
    | None => None
    end
  else None.

Fixpoint normalizeNFD (s : string) : string :=
  match s with
  | EmptyString => EmptyString
  | String c1 s' =>
      match s' with
      | String c2 rest =>
          if (byte_of c1 =? 195)%N then
            match decompose (byte_of c2) with
            | Some (base, mark) =>
                String (asciiOf base)
                  (String (asciiOf 204) (String (asciiOf mark) (normalizeNFD rest)))
            | None => String c1 (String c2 (normalizeNFD rest))
            end
          else String c1 (normalizeNFD s')
      | EmptyString => String c1 EmptyString
      end
  end.

(** Days since 1970-01-01 of a date of the proleptic Gregorian calendar. *)
Definition daysFromCivil (y m d : Z) : Z :=
  let y' := if m <=? 2 then y - 1 else y in
  let era := y' / 400 in
  let yoe := y' - era * 400 in
  let doy := (153 * (if 2 <? m then m - 3 else m + 9) + 2) / 5 + d - 1 in
  let doe := yoe * 365 + yoe / 4 - yoe / 100 + doy in
  era * 146097 + doe - 719468.

(** The inverse: year, month (0 to 11) and day of the month. *)
Definition civilFromDays (z : Z) : Z * Z * Z :=
  let z' := z + 719468 in
  let era := z' / 146097 in
  let doe := z' - era * 146097 in
  let yoe := (doe - doe / 1460 + doe / 36524 - doe / 146096) / 365 in
  let doy := doe - (365 * yoe + yoe / 4 - yoe / 100) in
  let mp := (5 * doy + 2) / 153 in
  let d := doy - (153 * mp + 2) / 5 + 1 in
  let m := (mp + 2) mod 12 in
  let y := yoe + era * 400 + (if m <=? 1 then 1 else 0) in
  (y, m, d).

Definition isLeap (y : Z) : bool :=
  ((y mod 4 =? 0) && negb (y mod 100 =? 0)) || (y mod 400 =? 0).

Definition daysInMonth (y m : Z) : Z :=
  if m =? 2 then (if isLeap y then 29 else 28)
  else if (m =? 4) || (m =? 6) || (m =? 9) || (m =? 11) then 30 else 31.

Definition digits (l : list ascii) : option Z :=
  foldl (fun acc c =>
           match acc, digit_of c with
           | Some a, Some d => Some (10 * a + d)
           | _, _ => None
           end) (Some 0) l.

Definition Date_parse (s : string) : option Z :=
  match list_ascii_of_string s with
  | [y1; y2; y3; y4; s1; m1; m2; s2; d1; d2] =>
      if (byte_of s1 =? 45)%N && (byte_of s2 =? 45)%N then
        match digits [y1; y2; y3; y4], digits [m1; m2], digits [d1; d2] with
        | Some y, Some m, Some d =>
            if (1 <=? m) && (m <=? 12) && (1 <=? d) && (d <=? daysInMonth y m)
            then Some (daysFromCivil y m d * msPerDay)
            else None
        | _, _, _ => None
        end
      else None
  | _ => None
  end.

Definition getFullYear (t : Z) : Z := (civilFromDays (t / msPerDay)).1.1.
Definition getMonth (t : Z) : Z := (civilFromDays (t / msPerDay)).1.2.
Definition getDate (t : Z) : Z := (civilFromDays (t / msPerDay)).2.

Definition Date_local (y m d : Z) : Z :=
  let y' := if (0 <=? y) && (y <=? 99) then 1900 + y else y in
  (daysFromCivil (y' + m / 12) (m mod 12 + 1) 1 + d - 1) * msPerDay.

Definition padded (width : nat) (n : Z) : string :=
  let s := pretty (Z.to_N n) in
  String.concat EmptyString (replicate (width - String.length s) "0") +:+ s.

Definition toISODate (t : Z) : string :=
  let '(y, m, d) := civilFromDays (t / msPerDay) in
  let year :=
    if (0 <=? y) && (y <=? 9999) then padded 4 y
    else (if y <? 0 then "-" else "+") +:+ padded 6 (Z.abs y) in
  year +:+ "-" +:+ padded 2 (m + 1) +:+ "-" +:+ padded 2 d.

Definition host : Host :=
  Build_Host toLowerCase normalizeNFD Date_parse eq_refl getFullYear getMonth
    (fun t => Z.mod_pos_bound _ 12 eq_refl) getDate Date_local toISODate.

End Reference.

(** * Vocabulary of the properties

    The predicates and measures in which the properties are stated, and the
    records used in their examples. *)

Section Vocabulary.
Context {host : Host}.

Import PerformanceDashboard BrokerageKPIsPage OperationStatusDashboard
  CargosInTransitDashboard UploadModal.

(** ** Status by BLs *)

(** [status s] is exactly [st]. *)
Definition hasStatus (st : string) (s : Shipment) : bool :=
  match status s with
  | Some st' => String.eqb st' st
  | None => false
  end.

(** A status the BL grouping recognises: one of its four buckets, or the
    alias ['CARGO READY']. *)
Definition recognizedStatus (s : Shipment) : bool :=
  existsb (fun st => hasStatus st s)
          ["IN TRANSIT"; "AT THE PORT"; "DI REGISTERED"; "CARGO CLEARED";
           "CARGO READY"].

Definition sumZ (l : list Z) : Z := foldr Z.add 0 l.

(** ** The dashboard filter *)

(** What the specification asks of a record that passes the filter. *)
Definition passesFilter (dateField : Shipment -> option string)
    (filters : KpiFilters) (s : Shipment) : Prop :=
  (cargo filters = [] \/
   exists c, typeOfCargo s = Some c /\ In c (cargo filters)) /\
  exists d t,
    dateField s = Some d /\ Date_parse d = Some t /\
    (year filters = None \/ year filters = Some (getFullYear t)) /\
    (month filters = None \/ month filters = Some (getMonth t)).

(** The reference date is absent or does not parse (as the empty string
    does not). *)
Definition undated (dateField : Shipment -> option string)
    (s : Shipment) : Prop :=
  dateField s = None \/
  exists d, dateField s = Some d /\ Date_parse d = None.

(** ** Monthly duration series *)

(** [v] is the integer nearest to [sum / n], the upper one at a tie. *)
Definition nearestInteger (v sum n : Z) : Prop :=
  2 * sum - n < 2 * n * v <= 2 * sum + n.

(** The month of the DI registration of a record, when it has one. *)
Definition monthOf (s : Shipment) : option nat :=
  match diRegistrationDate s with
  | Some d =>
      if String.eqb d EmptyString then None
      else match Date_parse d with
           | Some t => Some (Z.to_nat (getMonth t))
           | None => None
           end
  | None => None
  end.

Definition clearanceDays (s : Shipment) : option Z :=
  calculateDaysBetween (cargoPresenceDate s) (greenChannelOrDeliveryAuthorizedDate s).
Definition deliveryDays (s : Shipment) : option Z :=
  calculateDaysBetween (greenChannelOrDeliveryAuthorizedDate s) (firstTruckDelivery s).
Definition operationDays (s : Shipment) : option Z :=
  calculateDaysBetween (actualEta s) (greenChannelOrDeliveryAuthorizedDate s).
Definition nfDays (s : Shipment) : option Z :=
  calculateDaysBetween (greenChannelOrDeliveryAuthorizedDate s) (nfIssueDate s).

(** A record contributes to month [m] of a series when its DI was
    registered in that month and the day difference of the series is
    defined for it. *)
Definition contributes (days : Shipment -> option Z) (m : nat) (s : Shipment) : bool :=
  bool_decide (monthOf s = Some m) &&
  match days s with Some _ => true | None => false end.

Definition monthRecords (days : Shipment -> option Z) (m : nat)
    (l : list Shipment) : list Shipment :=
  List.filter (contributes days m) l.

Definition monthDays (days : Shipment -> option Z) (m : nat)
    (l : list Shipment) : list Z :=
  omap days (monthRecords days m l).

Definition bucketOf (m : nat) (l : list Shipment) : MonthBucket :=
  {| clearance := monthDays clearanceDays m l;
     delivery := monthDays deliveryDays m l;
     operation := monthDays operationDays m l;
     nf := monthDays nfDays m l;
     clearanceShipments := monthRecords clearanceDays m l;
     deliveryShipments := monthRecords deliveryDays m l;
     operationShipments := monthRecords operationDays m l;
     nfShipments := monthRecords nfDays m l |}.

(** What the specification asks of one monthly series: twelve entries;
    the entry of month [m] lists the records contributing to [m] and
    shows the rounded mean of their day differences, 0 if there are
    none. *)
Definition monthlySeries (series : list LinePoint)
    (days : Shipment -> option Z) (perf : list Shipment) : Prop :=
  length series = 12%nat /\
  forall m, (m < 12)%nat ->
    exists p, series !! m = Some p /\
      pointShipments p = monthRecords days m perf /\
      (monthRecords days m perf = [] -> pointValue p = 0) /\
      (monthRecords days m perf <> [] ->
       nearestInteger (pointValue p)
         (sumZ (monthDays days m perf)) (len (monthRecords days m perf))).

(** ** Day differences *)




(** ** Unique DIs per channel *)

(** [parametrization s] is exactly [c]. *)
Definition inChannel (c : string) (s : Shipment) : bool :=
match parametrization s with
| Some p => String.eqb p c
| None => false
end.

(** The DI number of a record, when it has one. *)
Definition diKey (s : Shipment) : option string :=
match di s with
| Some d => if String.eqb d EmptyString then None else Some d
| None => None
end.

(** The DI numbers on the rows of channel [c], one per row. *)
Definition channelDIs (c : string) (l : list Shipment) : list string :=
omap diKey (List.filter (inChannel c) l).

Definition channels : list string := ["Green"; "Yellow"; "Red"].

(** The three figures of a channel: rows and unique DIs of the brokerage
    chart, unique DIs of the performance chart. *)
Definition shipmentCount (l : list Shipment) (c : string) : Z :=
default 0 (BrokerageKPIsPage.channelValue <$>
           BrokerageKPIsPage.channelEntry (BrokerageKPIsPage.diChannelData l) c).

Definition uniqueCount (l : list Shipment) (c : string) : Z :=
default 0 (BrokerageKPIsPage.secondaryValue <$>
           BrokerageKPIsPage.channelEntry (BrokerageKPIsPage.diChannelData l) c).

Definition paramCount (l : list Shipment) (c : string) : Z :=
valueOf (PerformanceDashboard.diParamData l) c.

Definition channelGroupOf (c : string) (l : list Shipment) : ChannelGroup :=
{| channelShipments := List.filter (inChannel c) l;
   uniqueDIs := list_to_set (channelDIs c l) |}.

(** The [Map] of channel [c] after the records of [l]. *)
Definition diMapOf (c : string) (l : list Shipment) : list (string * Shipment) :=
foldl (fun m s =>
         if inChannel c s then
           match diKey s with
           | Some d => if Obj.hasOwnProperty m d then m else Obj.set d s m
           | None => m
           end
         else m) [] l.

(** A record with a DI number in a channel. *)
Definition diShipment (i d c : string) : Shipment :=
{| id := i; blAwb := i; typeOfCargo := None; shipmentType := None;
   fcl := None; incoterm := None; bondedWarehouse := None;
   actualEtd := None; actualEta := None; cargoPresenceDate := None;
   diRegistrationDate := None; greenChannelOrDeliveryAuthorizedDate := None;
   nfIssueDate := None; firstTruckDelivery := None; uniqueDi := None;
   di := Some d; parametrization := Some c; status := None |}.

(** ** Container counts *)

(** The sum over the records of a sequence of what each one adds. *)
Definition sumOver (f : Shipment -> Z) (l : list Shipment) : Z :=
sumZ (map f l).






(** The month and terminal of the cargo-volume chart a record falls
    into: the name of the month of its ETA, from July on, and its
    normalised terminal. *)
Definition volumeSlot (s : Shipment) : option (string * string) :=
match actualEta s with
| Some eta =>
    if negb (truthyStr (Some eta)) then None
    else match Date_parse eta with
         | Some date =>
             if 6 <=? getMonth date then
               match CargosInTransitDashboard.monthLabels
                       !! Z.to_nat (getMonth date - 6) with
               | Some monthName =>
                   Some (monthName, normalizeTerminalName (bondedWarehouse s))
               | None => None
               end
             else None
         | None => None
         end
| None => None
end.

(** What a record adds to the bar of terminal [t] in the month with index
    [i] of the cargo-volume chart. *)
Definition volumeContribution (t : string) (i : nat)
    (s : Shipment) : Z :=
match CargosInTransitDashboard.monthLabels !! i, volumeSlot s with
| Some m, Some (monthName, terminal) =>
    if String.eqb monthName m && String.eqb terminal t &&
       (0 <? CargosInTransitDashboard.containerVolume s)
    then CargosInTransitDashboard.containerVolume s else 0
| _, _ => 0
end.

Definition cellVolume (months : list (string * list (string * VolumeCell)))
    (m t : string) : Z :=
default 0 (volume <$> cellAt months m t).

Definition monthsStep (months : list (string * list (string * VolumeCell)))
    (s : Shipment) : list (string * list (string * VolumeCell)) :=
match volumeSlot s with
| Some (monthName, terminal) =>
    if 0 <? containerVolume s
    then Obj.alter (addToCell terminal (containerVolume s) s) monthName months
    else months
| None => months
end.

Definition terminalsStep (terminals : list string) (s : Shipment) : list string :=
match volumeSlot s with
| Some (_, terminal) => setAdd terminal terminals
| None => terminals
end.

(** A record of the operation views: mode, container count, status,
    warehouse and ETA. *)
Definition cargoShipment (i : string) (mode : option string) (n : option Z)
    (st warehouse eta : option string) : Shipment :=
{| id := i; blAwb := i; typeOfCargo := None; shipmentType := mode;
   fcl := n; incoterm := None; bondedWarehouse := warehouse;
   actualEtd := None; actualEta := eta; cargoPresenceDate := None;
   diRegistrationDate := None; greenChannelOrDeliveryAuthorizedDate := None;
   nfIssueDate := None; firstTruckDelivery := None; uniqueDi := None;
   di := None; parametrization := None; status := st |}.



(** ** Terminal names *)

(** The platform lower-cases and decomposes the six names the function
    returns as Unicode prescribes. *)
Definition foldsCanonical (host : Host) : Prop :=
  lowerNameOf "TECON" = "tecon" /\
  lowerNameOf "TECA" = "teca" /\
  lowerNameOf "CLIA Empório" = "clia emporio" /\
  lowerNameOf "Intermaritima" = "intermaritima" /\
  lowerNameOf "TPC" = "tpc" /\
  lowerNameOf "N/A" = "n/a".

(** ** The zoom window *)

(** The window lies inside the series. *)
Definition inBounds (data : list LinePoint) (v : LineChart.ViewRange) : Prop :=
  0 <= LineChart.start v /\ LineChart.start v <= LineChart.end_ v /\
  LineChart.end_ v <= len data - 1.

(** The midpoint [center] of a window. *)
Definition centerOf (v : LineChart.ViewRange) : Z :=
  LineChart.start v + (LineChart.end_ v - LineChart.start v) / 2.

(** Twelve monthly points, as the dashboards give the chart. *)
Definition twelvePoints : list LinePoint :=
replicate 12 {| pointValue := 0; pointShipments := [] |}.

(** ** Spreadsheet import *)











(** ** Five records for the examples *)

Definition exampleRecords : list Shipment :=
[cargoShipment "a" (Some "FCL") (Some 3) (Some "IN TRANSIT")
               (Some "Tecon Salvador") (Some "2024-08-15");
 cargoShipment "b" (Some "LCL") (Some 7) (Some "CARGO READY")
               (Some "Intermarítima") (Some "2024-09-01");
 cargoShipment "c" (Some "FCL/LCL") None (Some "CARGO DELIVERED")
               (Some "TPC") (Some "2024-09-10");
 cargoShipment "d" (Some "FCL") (Some 0) (Some "CARGO READY") None
               (Some "2024-03-10");
 cargoShipment "e" (Some "FCL") (Some 2) None (Some "tpc x") (Some "bad")].

Definition filter2024 : KpiFilters :=
{| cargo := []; year := Some 2024; month := None |}.

(** A record of the performance view: DI registration, cargo presence and
    clearance authorisation. *)
Definition perfShipment (i registered presence authorized : string) : Shipment :=
{| id := i; blAwb := i; typeOfCargo := None; shipmentType := None;
   fcl := None; incoterm := None; bondedWarehouse := None;
   actualEtd := None; actualEta := None; cargoPresenceDate := Some presence;
   diRegistrationDate := Some registered;
   greenChannelOrDeliveryAuthorizedDate := Some authorized;
   nfIssueDate := None; firstTruckDelivery := None; uniqueDi := None;
   di := None; parametrization := None; status := None |}.

(** Two clearances registered in March, of 3 and of 4 days. *)
Definition marchRecords : list Shipment :=
[perfShipment "p1" "2024-03-05" "2024-03-01" "2024-03-04";
 perfShipment "p2" "2024-03-20" "2024-03-10" "2024-03-14"].

(** Vocabulary of the sidebar and the charts. *)

(** A list of numbers goes strictly down. *)
Definition strictlyDescending (l : list Z) : Prop :=
StronglySorted (fun a b => b < a) l.

(** Chart entries are in order of their values, largest first. *)
Definition largestFirst (l : list ChartEntry) : Prop :=
StronglySorted (fun a b => value b <= value a) l.

(** The filters that select a year and nothing else. *)
Definition onlyYear (y : Z) : KpiFilters :=
{| cargo := []; year := Some y; month := None |}.

(** A record has an ETA that is a date in a year other than 0. *)
Definition hasEtaYear (s : Shipment) : Prop :=
exists y, KPIsPage.etaYear s = Some y /\ y <> 0.

(** The cargo selection after a click on [cargoType]. *)
Definition afterCargoClick (filters : KpiFilters) (cargoType : string) : KpiFilters :=
KPIsPage.handleFilterChange filters (KPIFilterSidebar.handleCargoClick filters cargoType).

Definition selected (filters : KpiFilters) (cargoType : string) : bool :=
existsb (String.eqb cargoType) (cargo filters).

(** ** Group charts *)

(** The incoterm of a record is exactly [k]. *)
Definition hasIncoterm (k : string) (s : Shipment) : bool :=
match incoterm s with
| Some i => String.eqb i k
| None => false
end.

(** The chart entry of the records that satisfy [p], in their order. *)
Definition entryOf (l : string) (p : Shipment -> bool) (ships : list Shipment)
  : ChartEntry :=
{| label := l; value := len (List.filter p ships);
   shipments := List.filter p ships |}.

(** The imports list after a click on a segment of the status chart of the
    dashboard page: the search box is empty. *)
Definition importsAfterClick (rows : list ImportRow) (l : string) : list ImportRow :=
@ImportsPage.filteredShipments host rows EmptyString
  (DashboardPage.handleSegmentClick l).

(** ** Zoom *)

(** No press of the reset button among the presses. *)
Definition noReset (actions : list LineChart.ZoomAction) : bool :=
forallb (fun a => match a with LineChart.ResetZoom => false | _ => true end) actions.

(** [n] presses of the zoom-in button. *)
Definition zoomInTimes (data : list LinePoint) (n : nat) (v : LineChart.ViewRange)
  : LineChart.ViewRange :=
foldl (LineChart.step data) v (replicate n LineChart.ZoomIn).

(** ** Upload *)

Definition slashOrDash (c : ascii) : bool :=
Ascii.eqb c "/" || Ascii.eqb c "-".

(** Two strings agree except that one may have a slash where the other has
    a dash. *)
Fixpoint sameUpToSlash (a b : string) : bool :=
match a, b with
| EmptyString, EmptyString => true
| String c a', String d b' =>
    (Ascii.eqb c d || (slashOrDash c && slashOrDash d)) && sameUpToSlash a' b'
| _, _ => false
end.



(** ** Counts of declarations and transport modes *)

(** The DI number of a record registered in month [m] (0 is January). *)
Definition registeredIn (m : nat) (s : Shipment) : option string :=
match diKey s, monthOf s with
| Some d, Some m' => if decide (m' = m) then Some d else None
| _, _ => None
end.

(** Number of distinct strings of a list. *)
Definition distinct (l : list string) : Z :=
Z.of_nat (size (list_to_set l : gset string)).






(** ** Status and warehouse charts *)


(** The terminal a record is counted under. *)
Definition terminalOf (s : Shipment) : string :=
normalizeTerminalName (bondedWarehouse s).

(** The names [normalizeTerminalName] maps to. *)
Definition canonicalNames : list string :=
["N/A"; "TECON"; "TECA"; "CLIA Empório"; "Intermaritima"; "TPC"].

(** ** Cargo volume and transit times *)

(** What a record adds to the month with index [i] of the cargo-volume
    chart, over all terminals. *)
Definition monthVolume (i : nat) (s : Shipment) : Z :=
match CargosInTransitDashboard.monthLabels !! i, volumeSlot s with
| Some m, Some (monthName, _) =>
    if String.eqb monthName m && (0 <? CargosInTransitDashboard.containerVolume s)
    then CargosInTransitDashboard.containerVolume s else 0
| _, _ => 0
end.



(** ** Objects used as maps

    An object literal answers [o[k]] with a member of [Object.prototype]
    when [k] names one and [o] has no property [k] of its own. The maps of
    this development hold own properties only, so what is stated of a
    function that reads [groups[k]] with a key taken from the data is
    stated for keys that are none of these names. *)

Definition inheritedNames : list string :=
["constructor"; "hasOwnProperty"; "isPrototypeOf"; "propertyIsEnumerable";
 "toLocaleString"; "toString"; "valueOf"; "__proto__"; "__defineGetter__";
 "__defineSetter__"; "__lookupGetter__"; "__lookupSetter__"].

Definition plainKey (k : string) : bool :=
negb (existsb (String.eqb k) inheritedNames).


Definition plainTerminals (l : list Shipment) : bool :=
forallb (fun s => plainKey (terminalOf s)) l.


End Vocabulary.

(** * Properties *)

(** ** Dictionaries *)

Module ObjFacts.

Lemma get_alter {V : Type} (f : V -> V) (k k' : string) (o : list (string * V)) :
  Obj.get k' (Obj.alter f k o) =
  if String.eqb k k' then f <$> Obj.get k' o else Obj.get k' o.
Proof.
  induction o as [|[k0 v] o IH]; simpl.
  - by destruct (String.eqb k k').
  - destruct (String.eqb_spec k k0) as [->|Hk]; simpl.
    + destruct (String.eqb_spec k' k0) as [->|Hk'].
      * by rewrite String.eqb_refl.
      * destruct (String.eqb_spec k0 k') as [->|_]; [done|reflexivity].
    + destruct (String.eqb_spec k' k0) as [->|Hk'].
      * destruct (String.eqb_spec k k0) as [->|_]; [done|reflexivity].
      * apply IH.
Qed.

Lemma get_set {V : Type} (k k' : string) (v : V) (o : list (string * V)) :
  Obj.get k' (Obj.set k v o) =
  if String.eqb k k' then Some v else Obj.get k' o.
Proof.
  induction o as [|[k0 v0] o IH]; simpl.
  - rewrite (String.eqb_sym k' k). by destruct (String.eqb k k').
  - destruct (String.eqb_spec k k0) as [->|Hk]; simpl.
    + destruct (String.eqb_spec k' k0) as [->|Hk'].
      * by rewrite String.eqb_refl.
      * destruct (String.eqb_spec k0 k') as [->|_]; [done|reflexivity].
    + destruct (String.eqb_spec k' k0) as [->|Hk'].
      * destruct (String.eqb_spec k k0) as [->|_]; [done|reflexivity].
      * apply IH.
Qed.

Lemma keys_alter {V : Type} (f : V -> V) (k : string) (o : list (string * V)) :
  Obj.keys (Obj.alter f k o) = Obj.keys o.
Proof.
  unfold Obj.keys. induction o as [|[k0 v] o IH]; simpl; [done|].
  destruct (String.eqb k k0); simpl; [done|]. f_equal. exact IH.
Qed.


End ObjFacts.

(** ** Shipment status by BLs *)

Section StatusByBLs.

Import OperationStatusDashboard.

Ltac case_status st :=
  repeat match goal with
  | |- context [String.eqb st ?k] =>
      destruct (String.eqb_spec st k); [subst st|]
  end.

Lemma statusByBLs_groups (l : list Shipment) :
  foldl statusByBLsStep
    [("IN TRANSIT", []); ("AT THE PORT", []); ("DI REGISTERED", []);
     ("CARGO CLEARED", [])] l =
  [("IN TRANSIT", List.filter (hasStatus "IN TRANSIT") l);
   ("AT THE PORT",
    List.filter (fun s => hasStatus "AT THE PORT" s || hasStatus "CARGO READY" s) l);
   ("DI REGISTERED", List.filter (hasStatus "DI REGISTERED") l);
   ("CARGO CLEARED", List.filter (hasStatus "CARGO CLEARED") l)].
Proof.
  induction l as [|s l IH] using rev_ind; [reflexivity|].
  rewrite foldl_app, IH. simpl. rewrite !List.filter_app. simpl.
  unfold statusByBLsStep, hasStatus, Obj.hasOwnProperty.
  destruct (status s) as [st|]; simpl; [|by rewrite !app_nil_r].
  case_status st; simpl; rewrite ?app_nil_r; try reflexivity; try congruence.
Qed.

Lemma recognized_partition (l : list Shipment) :
  len (List.filter (hasStatus "IN TRANSIT") l) +
  len (List.filter (fun s => hasStatus "AT THE PORT" s || hasStatus "CARGO READY" s) l) +
  len (List.filter (hasStatus "DI REGISTERED") l) +
  len (List.filter (hasStatus "CARGO CLEARED") l) =
  len (List.filter recognizedStatus l).
Proof.
  unfold len. induction l as [|s l IH]; [reflexivity|].
  simpl. unfold recognizedStatus, hasStatus in *. simpl in *.
  destruct (status s) as [st|]; simpl; [|lia].
  case_status st; simpl; try congruence; lia.
Qed.

End StatusByBLs.

(** C1. For every shipment sequence and every filter, the counts of the
    buckets of the chart "Shipment Status (by BLs)" add up to the number of
    filtered records whose status is recognised; a record with another
    status, or without one, is in no bucket; and the records with status
    'CARGO READY' are counted in the bucket 'AT THE PORT', next to those
    with status 'AT THE PORT'. *)
Theorem statusByBLs_counts_recognized {host : Host}
    (ships : list Shipment) (filters : KpiFilters) :
  let filtered := OperationStatusDashboard.filteredShipments ships filters in
  let chart := OperationStatusDashboard.statusByBLsData filtered in
  sumZ (value <$> chart) = len (List.filter recognizedStatus filtered) /\
  (forall e s, e ∈ chart -> In s (shipments e) -> recognizedStatus s = true) /\
  shipmentsOf chart "AT THE PORT" =
    List.filter (fun s => hasStatus "AT THE PORT" s || hasStatus "CARGO READY" s)
                filtered /\
  valueOf chart "AT THE PORT" =
    len (List.filter (hasStatus "AT THE PORT") filtered) +
    len (List.filter (hasStatus "CARGO READY") filtered).
Proof.
  intros filtered chart. subst chart.
  unfold OperationStatusDashboard.statusByBLsData.
  rewrite statusByBLs_groups. cbn [map fmap list_fmap value sumZ foldr].
  split; [|split; [|split]].
  - rewrite <- recognized_partition. lia.
  - intros e s He Hs.
    assert (Hin : forall p, In s (List.filter p filtered) -> p s = true).
    { intros p Hp. apply filter_In in Hp. tauto. }
    unfold recognizedStatus. simpl.
    repeat (apply elem_of_cons in He as [->|He]); simpl in Hs;
      [apply Hin in Hs; rewrite ?Hs; simpl; rewrite ?orb_true_r; try done ..
      | by apply elem_of_nil in He].
    apply orb_true_iff in Hs as [->| ->]; by rewrite ?orb_true_r.
  - reflexivity.
  - unfold valueOf. simpl. unfold len.
    rewrite <- Nat2Z.inj_add. f_equal.
    induction filtered as [|s l IH]; [reflexivity|]. simpl.
    unfold hasStatus in *. destruct (status s) as [st|]; simpl; [|exact IH].
    destruct (String.eqb_spec st "AT THE PORT") as [->|]; simpl; [lia|].
    destruct (String.eqb st "CARGO READY"); simpl; lia.
Qed.

Lemma statusByBLs_counts_recognized_witness :
  sumZ (value <$>
        OperationStatusDashboard.statusByBLsData
          (@OperationStatusDashboard.filteredShipments Reference.host
             exampleRecords filter2024)) = 3.
Proof.
  exact (proj1 (@statusByBLs_counts_recognized Reference.host
                  exampleRecords filter2024)).
Defined.

(** ** The dashboard filter *)

Section FilterFacts.
Context {host : Host}.

Lemma cargoIncludes_spec (cargo : list string) (t : option string) :
  cargoIncludes cargo t = true <-> exists c, t = Some c /\ In c cargo.
Proof.
  destruct t as [c|]; simpl.
  - rewrite existsb_exists. split.
    + intros (x & Hx & Heq). apply String.eqb_eq in Heq. subst x. eauto.
    + intros (c' & [= <-] & Hc). exists c. by rewrite String.eqb_refl.
  - split; [done|]. by intros (c & ? & _).
Qed.

Lemma matchesFilters_spec (dateField : Shipment -> option string)
      (filters : KpiFilters) (s : Shipment) :
  matchesFilters dateField filters s = true <-> passesFilter dateField filters s.
Proof.
  unfold matchesFilters, passesFilter.
  assert (Hcargo :
    (len (cargo filters) =? 0) || cargoIncludes (cargo filters) (typeOfCargo s) = true
    <-> cargo filters = [] \/
        exists c, typeOfCargo s = Some c /\ In c (cargo filters)).
  { rewrite orb_true_iff, cargoIncludes_spec, Z.eqb_eq. unfold len.
    destruct (cargo filters); simpl; [tauto|].
    split; (intros [H|H]; [discriminate H || lia | by right]). }
  destruct (dateField s) as [d|]; [|split; [done|by intros (_ & d & t & ? & _)]].
  simpl. destruct (String.eqb_spec d EmptyString) as [->|Hd]; simpl.
  { split; [done|]. intros (_ & d & t & [= <-] & Hp & _).
    by rewrite Date_parse_empty in Hp. }
  destruct (Date_parse d) as [t|] eqn:Hparse.
  - rewrite !andb_true_iff, Hcargo. split.
    + intros [[Hc Hy] Hm]. split; [exact Hc|]. exists d, t.
      repeat split; try done.
      * destruct (year filters) as [y|]; [right|by left].
        apply Z.eqb_eq in Hy. by subst.
      * destruct (month filters) as [m|]; [right|by left].
        apply Z.eqb_eq in Hm. by subst.
    + intros (Hc & d' & t' & [= <-] & Hp & Hy & Hm).
      rewrite Hparse in Hp. injection Hp as <-.
      repeat split; try done.
      * destruct Hy as [->| ->]; [done|apply Z.eqb_refl].
      * destruct Hm as [->| ->]; [done|apply Z.eqb_refl].
  - split; [done|]. intros (_ & d' & t' & [= <-] & Hp & _).
    rewrite Hparse in Hp. discriminate.
Qed.

Lemma undated_not_passes (dateField : Shipment -> option string)
      (filters : KpiFilters) (s : Shipment) :
  undated dateField s -> ~ passesFilter dateField filters s.
Proof.
  intros Hu (_ & d & t & Hd & Hp & _).
  destruct Hu as [Hu|(d' & Hu & Hn)]; rewrite Hu in Hd.
  - discriminate.
  - injection Hd as <-. rewrite Hn in Hp. discriminate.
Qed.

End FilterFacts.

(** C2. A record is kept by the filter of a dashboard exactly when it is
    one of the given records, its cargo type is in the cargo set (or the set
    is empty), its reference date ([actualEta] in the transit and operation
    views, [diRegistrationDate] in the performance view) is present and
    parses, and the year and month of that date equal those of the filter
    unless the filter says 'All'; a record whose reference date is absent
    or does not parse is never kept. *)
Theorem filteredShipments_iff {host : Host}
    (ships : list Shipment) (filters : KpiFilters) (s : Shipment) :
  (In s (CargosInTransitDashboard.filteredShipments ships filters) <->
   In s ships /\ passesFilter actualEta filters s) /\
  (In s (OperationStatusDashboard.filteredShipments ships filters) <->
   In s ships /\ passesFilter actualEta filters s) /\
  (In s (PerformanceDashboard.filteredShipments ships filters) <->
   In s ships /\ passesFilter diRegistrationDate filters s) /\
  (undated actualEta s ->
   ~ In s (CargosInTransitDashboard.filteredShipments ships filters) /\
   ~ In s (OperationStatusDashboard.filteredShipments ships filters)) /\
  (undated diRegistrationDate s ->
   ~ In s (PerformanceDashboard.filteredShipments ships filters)).
Proof.
  unfold CargosInTransitDashboard.filteredShipments,
    OperationStatusDashboard.filteredShipments,
    PerformanceDashboard.filteredShipments.
  rewrite !filter_In, !matchesFilters_spec.
  split; [reflexivity|]. split; [reflexivity|]. split; [reflexivity|].
  split.
  - intros Hu.
    pose proof (undated_not_passes actualEta filters s Hu) as Hn. tauto.
  - intros Hu.
    pose proof (undated_not_passes diRegistrationDate filters s Hu) as Hn. tauto.
Qed.

Lemma filteredShipments_iff_witness :
  In (cargoShipment "a" (Some "FCL") (Some 3) (Some "IN TRANSIT")
                    (Some "Tecon Salvador") (Some "2024-08-15"))
     (@CargosInTransitDashboard.filteredShipments Reference.host
        exampleRecords filter2024).
Proof.
  apply (proj2 (proj1 (@filteredShipments_iff Reference.host exampleRecords
                         filter2024 _))).
  split; [left; reflexivity|]. split; [left; reflexivity|].
  exists "2024-08-15", 1723680000000.
  split; [reflexivity|]. split; [reflexivity|].
  split; [right; reflexivity|left; reflexivity].
Defined.

(** ** Monthly duration series *)

Lemma foldl_add_sumZ (l : list Z) (a : Z) : foldl Z.add a l = a + sumZ l.
Proof.
  revert a. induction l as [|x l IH]; intros a; simpl; [lia|].
  rewrite IH. unfold sumZ. simpl. lia.
Qed.

Lemma Math_round_div_nearest (a b : Z) :
  0 < b -> nearestInteger (Math_round_div a b) a b.
Proof.
  intros Hb. unfold nearestInteger, Math_round_div.
  pose proof (Z.div_mod (2 * a + b) (2 * b) ltac:(lia)) as Hdm.
  pose proof (Z.mod_pos_bound (2 * a + b) (2 * b) ltac:(lia)) as Hm.
  nia.
Qed.

Section LineChartData.
Context {host : Host}.

Import PerformanceDashboard.

Lemma monthRecords_snoc days m l s :
  monthRecords days m (l ++ [s]) =
  monthRecords days m l ++ (if contributes days m s then [s] else []).
Proof. unfold monthRecords. by rewrite List.filter_app. Qed.

Lemma monthDays_snoc days m l s :
  monthDays days m (l ++ [s]) =
  monthDays days m l ++
    (if bool_decide (monthOf s = Some m)
     then match days s with Some d => [d] | None => [] end else []).
Proof.
  unfold monthDays. rewrite monthRecords_snoc, omap_app. f_equal.
  unfold contributes. case_bool_decide; simpl; [|done].
  destruct (days s) eqn:E; simpl; [by rewrite E|done].
Qed.

Lemma bucketOf_snoc_other m l s :
  monthOf s <> Some m -> bucketOf m (l ++ [s]) = bucketOf m l.
Proof.
  intros Hne. unfold bucketOf.
  rewrite !monthDays_snoc, !monthRecords_snoc. unfold contributes.
  rewrite (bool_decide_eq_false_2 _ Hne). simpl. by rewrite !app_nil_r.
Qed.

Lemma bucketOf_snoc_same m l s :
  monthOf s = Some m ->
  bucketOf m (l ++ [s]) =
  pushNf (nfDays s) s
    (pushOperation (operationDays s) s
       (pushDelivery (deliveryDays s) s
          (pushClearance (clearanceDays s) s (bucketOf m l)))).
Proof.
  intros He. unfold bucketOf.
  rewrite !monthDays_snoc, !monthRecords_snoc. unfold contributes.
  rewrite (bool_decide_eq_true_2 _ He). simpl.
  destruct (clearanceDays s), (deliveryDays s), (operationDays s), (nfDays s);
    simpl; by rewrite ?app_nil_r.
Qed.

Lemma lineStep_months (l : list Shipment) :
  foldl lineStep (replicate 12 emptyBucket) l =
  map (fun m => bucketOf m l) (seq 0 12).
Proof.
  induction l as [|s l IH] using rev_ind; [reflexivity|].
  rewrite foldl_app, IH. cbn [foldl].
  assert (Hother : monthOf s = None ->
    map (fun m => bucketOf m l) (seq 0 12) =
    map (fun m => bucketOf m (l ++ [s])) (seq 0 12)).
  { intros Hn. apply map_ext. intros m.
    symmetry. apply bucketOf_snoc_other. by rewrite Hn. }
  unfold lineStep. unfold monthOf in Hother.
  destruct (diRegistrationDate s) as [d|] eqn:Hd; [|by apply Hother].
  simpl. destruct (String.eqb d EmptyString) eqn:Hempty; simpl; [by apply Hother|].
  destruct (Date_parse d) as [t|] eqn:Hp; [|by apply Hother].
  pose proof (getMonth_range t) as Hrange.
  replace ((0 <=? getMonth t) && (getMonth t <? 12)) with true by
    (symmetry; apply andb_true_iff; split; [apply Z.leb_le|apply Z.ltb_lt]; lia).
  assert (Hm : monthOf s = Some (Z.to_nat (getMonth t))).
  { unfold monthOf. by rewrite Hd, Hempty, Hp. }
  fold (clearanceDays s) (deliveryDays s) (operationDays s) (nfDays s).
  remember (Z.to_nat (getMonth t)) as k eqn:Hk.
  assert (Hlt : (k < 12)%nat) by lia. clear Hk Hother.
  do 12 (destruct k as [|k];
         [cbn [alter list_alter map seq];
          rewrite (bucketOf_snoc_same _ _ _ Hm);
          rewrite !bucketOf_snoc_other by (rewrite Hm; congruence);
          reflexivity|]).
  lia.
Qed.

End LineChartData.

Section DurationMetrics.
Context {host : Host}.

Import PerformanceDashboard.

Lemma monthDays_length days m l :
  length (monthDays days m l) = length (monthRecords days m l).
Proof.
  unfold monthDays, monthRecords.
  induction l as [|s l IH]; [reflexivity|]. simpl.
  destruct (contributes days m s) eqn:Hc; [|exact IH].
  unfold contributes in Hc. apply andb_true_iff in Hc as [_ Hc].
  simpl. destruct (days s); [|discriminate]. simpl. f_equal. exact IH.
Qed.


Lemma series_lookup (g : MonthBucket -> LinePoint) (l : list Shipment) (m : nat) :
  (m < 12)%nat ->
  map g (map (fun m => bucketOf m l) (seq 0 12)) !! m = Some (g (bucketOf m l)).
Proof.
  intros Hm.
  change (map g (map (fun m => bucketOf m l) (seq 0 12)))
    with (g <$> ((fun m => bucketOf m l) <$> seq 0 12)).
  rewrite !list_lookup_fmap, lookup_seq_lt by done. reflexivity.
Qed.

Lemma roundedAvg_nearest (arr : list Z) :
  arr <> [] -> nearestInteger (roundedAvg arr) (sumZ arr) (len arr).
Proof.
  intros Hne. unfold roundedAvg.
  assert (0 < len arr) by (unfold len; destruct arr; [done|simpl; lia]).
  destruct (Z.eqb_spec (len arr) 0) as [?|_]; [lia|].
  rewrite foldl_add_sumZ. by apply Math_round_div_nearest.
Qed.

Lemma monthlySeries_intro (sel : MonthBucket -> list Z)
      (selShipments : MonthBucket -> list Shipment)
      (days : Shipment -> option Z) (perf : list Shipment) :
  (forall m, sel (bucketOf m perf) = monthDays days m perf) ->
  (forall m, selShipments (bucketOf m perf) = monthRecords days m perf) ->
  monthlySeries
    (map (fun b => {| pointValue := roundedAvg (sel b);
                      pointShipments := selShipments b |})
         (map (fun m => bucketOf m perf) (seq 0 12)))
    days perf.
Proof.
  intros Hsel Hships. split; [by rewrite !length_map, length_seq|].
  intros m Hm. eexists. split; [by apply series_lookup|].
  cbn [pointValue pointShipments]. rewrite Hsel, Hships.
  split; [reflexivity|]. split.
  - intros Hnil. unfold monthDays. rewrite Hnil. reflexivity.
  - intros Hne. unfold len at 1. rewrite <- monthDays_length.
    apply roundedAvg_nearest. intros Hnil.
    apply Hne. apply length_zero_iff_nil.
    by rewrite <- monthDays_length, Hnil.
Qed.

End DurationMetrics.

(** C4. For every shipment sequence and filter, each of the four monthly
    duration series (clearance, delivery, operation, NF issue) has exactly
    twelve entries, one per calendar month 0 to 11; the entry of a month
    with contributing records is the mean of their day differences rounded
    to the nearest integer, and the entry of a month without any is 0. The
    records considered are the filtered ones not flagged [uniqueDi = 'Yes']. *)
Theorem lineChartData_monthly_means {host : Host}
    (ships : list Shipment) (filters : KpiFilters) :
  let filtered := PerformanceDashboard.filteredShipments ships filters in
  let perf := List.filter PerformanceDashboard.notUniqueDi filtered in
  let chart := PerformanceDashboard.lineChartData filtered in
  monthlySeries (PerformanceDashboard.clearanceSeries chart) clearanceDays perf /\
  monthlySeries (PerformanceDashboard.deliverySeries chart) deliveryDays perf /\
  monthlySeries (PerformanceDashboard.operationSeries chart) operationDays perf /\
  monthlySeries (PerformanceDashboard.nfSeries chart) nfDays perf.
Proof.
  intros filtered perf chart. subst chart.
  unfold PerformanceDashboard.lineChartData. fold perf.
  rewrite lineStep_months.
  cbn [PerformanceDashboard.clearanceSeries PerformanceDashboard.deliverySeries
       PerformanceDashboard.operationSeries PerformanceDashboard.nfSeries].
  repeat split; by apply monthlySeries_intro.
Qed.

Lemma lineChartData_monthly_means_witness :
  @monthlySeries Reference.host
    (PerformanceDashboard.clearanceSeries
       (@PerformanceDashboard.lineChartData Reference.host
          (@PerformanceDashboard.filteredShipments Reference.host
             marchRecords filter2024)))
    (@clearanceDays Reference.host)
    (List.filter PerformanceDashboard.notUniqueDi
       (@PerformanceDashboard.filteredShipments Reference.host
          marchRecords filter2024)).
Proof.
  exact (proj1 (@lineChartData_monthly_means Reference.host
                  marchRecords filter2024)).
Defined.

Example clearanceSeries_march :
  pointValue <$>
    PerformanceDashboard.clearanceSeries
      (@PerformanceDashboard.lineChartData Reference.host marchRecords) =
  [0; 0; 4; 0; 0; 0; 0; 0; 0; 0; 0; 0].
Proof. vm_compute. reflexivity. Qed.

(** ** Day differences *)


Section DayDifference.
Context {host : Host}.

Import PerformanceDashboard BrokerageKPIsPage.

Lemma calculateDaysBetween_parsed (s e : string) (ts te : Z) :
  Date_parse s = Some ts -> Date_parse e = Some te ->
  calculateDaysBetween (Some s) (Some e) =
  Some (Math_ceil_div (Z.abs (te - ts)) msPerDay).
Proof.
  intros Hps Hpe. unfold calculateDaysBetween. simpl.
  destruct (String.eqb_spec s EmptyString) as [->|_];
    [by rewrite Date_parse_empty in Hps|].
  destruct (String.eqb_spec e EmptyString) as [->|_];
    [by rewrite Date_parse_empty in Hpe|].
  simpl. by rewrite Hps, Hpe.
Qed.





End DayDifference.



(** ** Unique DIs per parametrization channel *)

Section UniqueDIs.

Import BrokerageKPIsPage PerformanceDashboard.

Ltac case_channel p :=
  repeat match goal with
  | |- context [String.eqb p ?k] =>
      destruct (String.eqb_spec p k); [subst p|]
  end.

Lemma channelGroupOf_snoc_out c l s :
  inChannel c s = false -> channelGroupOf c (l ++ [s]) = channelGroupOf c l.
Proof.
  intros H. unfold channelGroupOf, channelDIs.
  rewrite List.filter_app. simpl. rewrite H. by rewrite app_nil_r.
Qed.

Lemma channelGroupOf_snoc_in c l s :
  inChannel c s = true ->
  channelGroupOf c (l ++ [s]) =
  {| channelShipments := channelShipments (channelGroupOf c l) ++ [s];
     uniqueDIs :=
       match di s with
       | Some d =>
           if truthyStr (Some d) then {[ d ]} ∪ uniqueDIs (channelGroupOf c l)
           else uniqueDIs (channelGroupOf c l)
       | None => uniqueDIs (channelGroupOf c l)
       end |}.
Proof.
  intros H. unfold channelGroupOf, channelDIs. simpl.
  rewrite List.filter_app. simpl. rewrite H. f_equal.
  rewrite omap_app, list_to_set_app_L. simpl. unfold diKey.
  destruct (di s) as [d|]; simpl.
  - destruct (String.eqb d EmptyString); simpl.
    + by rewrite union_empty_r_L.
    + rewrite union_empty_r_L. apply (comm_L (∪)).
  - by rewrite union_empty_r_L.
Qed.

Lemma diChannel_groups (l : list Shipment) :
  foldl diChannelStep
    [("Green", emptyChannel); ("Yellow", emptyChannel); ("Red", emptyChannel)] l =
  [("Green", channelGroupOf "Green" l); ("Yellow", channelGroupOf "Yellow" l);
   ("Red", channelGroupOf "Red" l)].
Proof.
  induction l as [|s l IH] using rev_ind; [reflexivity|].
  rewrite foldl_app, IH. cbn [foldl].
  unfold diChannelStep, Obj.hasOwnProperty.
  destruct (parametrization s) as [p|] eqn:Hp.
  - assert (Hin : forall c, inChannel c s = String.eqb p c)
      by (intros c; unfold inChannel; by rewrite Hp).
    assert (Hrhs : forall c,
      channelGroupOf c (l ++ [s]) =
      if String.eqb p c
      then {| channelShipments := channelShipments (channelGroupOf c l) ++ [s];
              uniqueDIs :=
                match di s with
                | Some d =>
                    if truthyStr (Some d) then {[ d ]} ∪ uniqueDIs (channelGroupOf c l)
                    else uniqueDIs (channelGroupOf c l)
                | None => uniqueDIs (channelGroupOf c l)
                end |}
      else channelGroupOf c l).
    { intros c. destruct (String.eqb p c) eqn:E.
      - apply channelGroupOf_snoc_in. by rewrite Hin.
      - apply channelGroupOf_snoc_out. by rewrite Hin. }
    rewrite !Hrhs. clear Hrhs Hin.
    cbn [truthyStr Obj.get Obj.alter].
    case_channel p; reflexivity.
  - rewrite !channelGroupOf_snoc_out; [done|..]; unfold inChannel; by rewrite Hp.
Qed.

Lemma shipmentCount_spec (l : list Shipment) (c : string) :
  In c channels -> shipmentCount l c = len (List.filter (inChannel c) l).
Proof.
  unfold shipmentCount, diChannelData, channelEntry. rewrite diChannel_groups.
  intros [<-|[<-|[<-|[]]]]; reflexivity.
Qed.

Lemma uniqueCount_spec (l : list Shipment) (c : string) :
  In c channels ->
  uniqueCount l c = Z.of_nat (size (list_to_set (channelDIs c l) : gset string)).
Proof.
  unfold uniqueCount, diChannelData, channelEntry. rewrite diChannel_groups.
  intros [<-|[<-|[<-|[]]]]; reflexivity.
Qed.

End UniqueDIs.

Module ObjSize.

Lemma length_set_new {V : Type} (k : string) (v : V) (o : list (string * V)) :
  Obj.get k o = None -> length (Obj.set k v o) = S (length o).
Proof.
  induction o as [|[k0 v0] o IH]; simpl; [done|].
  destruct (String.eqb k k0); [done|]. intros H. simpl. by rewrite IH.
Qed.

End ObjSize.

Section UniqueDIsParam.
Context {host : Host}.

Import PerformanceDashboard.

Lemma diParam_groups (l : list Shipment) :
  foldl diParamStep [("Green", []); ("Yellow", []); ("Red", [])] l =
  [("Green", diMapOf "Green" l); ("Yellow", diMapOf "Yellow" l);
   ("Red", diMapOf "Red" l)].
Proof.
  induction l as [|s l IH] using rev_ind; [reflexivity|].
  unfold diMapOf. rewrite !foldl_app. fold (diMapOf "Green" l).
  fold (diMapOf "Yellow" l). fold (diMapOf "Red" l). rewrite IH.
  cbn [foldl]. unfold diParamStep, inChannel, diKey, Obj.hasOwnProperty.
  destruct (di s) as [d|]; destruct (parametrization s) as [p|];
    try reflexivity.
  - cbn [truthyStr Obj.get Obj.alter].
    destruct (String.eqb d EmptyString); cbn [negb andb].
    + repeat match goal with
      | |- context [String.eqb p ?k] => destruct (String.eqb p k)
      end; reflexivity.
    + repeat match goal with
      | |- context [String.eqb p ?k] =>
          destruct (String.eqb_spec p k); [subst p|]
      end; reflexivity.
  - repeat match goal with
    | |- context [String.eqb p ?k] => destruct (String.eqb p k)
    end; reflexivity.
Qed.

Lemma channelDIs_snoc c l s :
  channelDIs c (l ++ [s]) =
  channelDIs c l ++
    (if inChannel c s
     then match diKey s with Some d => [d] | None => [] end else []).
Proof.
  unfold channelDIs. rewrite List.filter_app, omap_app. simpl.
  destruct (inChannel c s); simpl; [|done]. by destruct (diKey s).
Qed.

Lemma diMapOf_inv (c : string) (l : list Shipment) :
  (forall d, Obj.get d (diMapOf c l) = None <->
             d ∉ (list_to_set (channelDIs c l) : gset string)) /\
  length (diMapOf c l) = size (list_to_set (channelDIs c l) : gset string).
Proof.
  induction l as [|s l [IHget IHlen]] using rev_ind.
  - split; [|reflexivity]. intros d. simpl. set_solver.
  - unfold diMapOf. rewrite foldl_app. fold (diMapOf c l). cbn [foldl].
    rewrite channelDIs_snoc.
    destruct (inChannel c s); [|rewrite app_nil_r; split; assumption].
    destruct (diKey s) as [d|]; [|rewrite app_nil_r; split; assumption].
    rewrite list_to_set_app_L.
    unfold Obj.hasOwnProperty.
    destruct (Obj.get d (diMapOf c l)) as [s0|] eqn:Hget.
    + assert (Hin : d ∈ (list_to_set (channelDIs c l) : gset string)).
      { destruct (decide (d ∈ (list_to_set (channelDIs c l) : gset string)))
          as [?|Hn]; [done|]. apply IHget in Hn. congruence. }
      replace (list_to_set (channelDIs c l) ∪ list_to_set [d] : gset string)
        with (list_to_set (channelDIs c l) : gset string) by set_solver.
      done.
    + assert (Hnin : d ∉ (list_to_set (channelDIs c l) : gset string))
        by by apply IHget.
      split.
      * intros d'. rewrite ObjFacts.get_set.
        destruct (String.eqb_spec d d') as [<-|Hne].
        -- split; [done|]. intros Hn. exfalso. apply Hn. set_solver.
        -- rewrite IHget. set_solver.
      * rewrite ObjSize.length_set_new by done.
        assert (Hd : (list_to_set [d] : gset string) = {[ d ]}) by set_solver.
        rewrite Hd, size_union by set_solver.
        rewrite size_singleton. unfold channelDIs in *. lia.
Qed.

Lemma paramCount_spec (l : list Shipment) (c : string) :
  In c channels ->
  paramCount l c = Z.of_nat (size (list_to_set (channelDIs c l) : gset string)).
Proof.
  unfold paramCount, valueOf, diParamData. rewrite diParam_groups.
  intros [<-|[<-|[<-|[]]]]; cbn [map List.find label String.eqb Ascii.eqb Bool.eqb value];
    unfold len; f_equal; apply diMapOf_inv.
Qed.

End UniqueDIsParam.

Section UniqueDIsCount.
Context {host : Host}.

Lemma channelDIs_app c l1 l2 :
  channelDIs c (l1 ++ l2) = channelDIs c l1 ++ channelDIs c l2.
Proof. unfold channelDIs. by rewrite List.filter_app, omap_app. Qed.

Lemma channelDIs_cons_in c r l d :
  inChannel c r = true -> diKey r = Some d ->
  channelDIs c (r :: l) = d :: channelDIs c l.
Proof. intros Hc Hd. unfold channelDIs. simpl. rewrite Hc. simpl. by rewrite Hd. Qed.

Lemma size_add_singleton (d : string) (X : gset string) :
  (d ∉ X -> size ({[ d ]} ∪ X) = S (size X)) /\
  (d ∈ X -> size ({[ d ]} ∪ X) = size X).
Proof.
  split; intros H.
  - rewrite size_union by set_solver. by rewrite size_singleton.
  - f_equal. set_solver.
Qed.

Lemma channelDIs_two_added c l1 l2 l3 r1 r2 d :
  inChannel c r1 = true -> inChannel c r2 = true ->
  diKey r1 = Some d -> diKey r2 = Some d ->
  (list_to_set (channelDIs c (l1 ++ r1 :: l2 ++ r2 :: l3)) : gset string) =
  {[ d ]} ∪ list_to_set (channelDIs c (l1 ++ l2 ++ l3)).
Proof.
  intros Hc1 Hc2 Hd1 Hd2.
  rewrite !channelDIs_app, (channelDIs_cons_in c r1 _ d Hc1 Hd1),
    !channelDIs_app, (channelDIs_cons_in c r2 _ d Hc2 Hd2).
  rewrite !list_to_set_app_L, !list_to_set_cons, !list_to_set_app_L.
  set_solver.
Qed.

Lemma filter_two_added (p : Shipment -> bool) l1 l2 l3 r1 r2 :
  p r1 = true -> p r2 = true ->
  len (List.filter p (l1 ++ r1 :: l2 ++ r2 :: l3)) =
  len (List.filter p (l1 ++ l2 ++ l3)) + 2.
Proof.
  intros H1 H2. unfold len.
  rewrite !List.filter_app. simpl. rewrite H1, !List.filter_app. simpl.
  rewrite H2. rewrite !length_app. simpl. rewrite !length_app. simpl. lia.
Qed.

End UniqueDIsCount.

(** C5, as the code has it. Take two records with the same non-empty DI
    number [d] and the same channel [c] (Green, Yellow or Red), added
    anywhere to a sequence of filtered records. The number of rows of the
    channel grows by exactly 2. The number of unique DIs of the channel, in
    the brokerage chart and in the performance chart alike, grows by exactly
    1 when no row of that channel in the sequence carries [d] already, and
    stays as it is when one does. *)
Theorem di_unique_per_channel {host : Host}
    (l1 l2 l3 : list Shipment) (r1 r2 : Shipment) (d c : string) :
  In c channels -> d <> EmptyString ->
  di r1 = Some d -> di r2 = Some d ->
  parametrization r1 = Some c -> parametrization r2 = Some c ->
  let before := l1 ++ l2 ++ l3 in
  let after := l1 ++ r1 :: l2 ++ r2 :: l3 in
  shipmentCount after c = shipmentCount before c + 2 /\
  (~ In d (channelDIs c before) ->
   uniqueCount after c = uniqueCount before c + 1 /\
   paramCount after c = paramCount before c + 1) /\
  (In d (channelDIs c before) ->
   uniqueCount after c = uniqueCount before c /\
   paramCount after c = paramCount before c).
Proof.
  intros Hc Hd Hd1 Hd2 Hp1 Hp2 before after.
  assert (Hc1 : inChannel c r1 = true)
    by (unfold inChannel; rewrite Hp1; apply String.eqb_refl).
  assert (Hc2 : inChannel c r2 = true)
    by (unfold inChannel; rewrite Hp2; apply String.eqb_refl).
  assert (Hk : forall r, di r = Some d -> diKey r = Some d).
  { intros r Hr. unfold diKey. rewrite Hr.
    by destruct (String.eqb_spec d EmptyString). }
  rewrite !shipmentCount_spec, !uniqueCount_spec, !paramCount_spec by done.
  subst before after.
  rewrite (channelDIs_two_added c l1 l2 l3 r1 r2 d Hc1 Hc2 (Hk _ Hd1) (Hk _ Hd2)).
  destruct (size_add_singleton d (list_to_set (channelDIs c (l1 ++ l2 ++ l3))))
    as [Hnew Hold].
  split; [by apply filter_two_added|]. split.
  - intros Hn. rewrite Hnew; [lia|]. rewrite elem_of_list_to_set.
    by rewrite list_elem_of_In.
  - intros Hi. rewrite Hold; [lia|]. rewrite elem_of_list_to_set.
    by rewrite list_elem_of_In.
Qed.

Lemma di_unique_per_channel_witness :
  shipmentCount [diShipment "row-0" "24/0001" "Green";
                 diShipment "row-1" "24/0001" "Green"] "Green" =
  shipmentCount [] "Green" + 2.
Proof.
  apply (@di_unique_per_channel Reference.host [] [] []
           (diShipment "row-0" "24/0001" "Green")
           (diShipment "row-1" "24/0001" "Green") "24/0001" "Green").
  - simpl. tauto.
  - discriminate.
  - reflexivity.
  - reflexivity.
  - reflexivity.
  - reflexivity.
Defined.

(** C5, as the claim words it, fails: when the sequence already holds a row
    of the channel with that DI number, the two added rows leave the number
    of unique DIs as it was. *)
Lemma di_unique_plus_one_counterexample :
  ~ (forall (l : list Shipment) (r1 r2 : Shipment) (d c : string),
       In c channels -> d <> EmptyString ->
       di r1 = Some d -> di r2 = Some d ->
       parametrization r1 = Some c -> parametrization r2 = Some c ->
       uniqueCount (l ++ [r1; r2]) c = uniqueCount l c + 1).
Proof.
  intros H.
  specialize (H [diShipment "row-0" "24/0001" "Green"]
                (diShipment "row-1" "24/0001" "Green")
                (diShipment "row-2" "24/0001" "Green") "24/0001" "Green").
  assert (Hc : In "Green" channels) by (simpl; tauto).
  specialize (H Hc ltac:(discriminate) eq_refl eq_refl eq_refl eq_refl).
  vm_compute in H. discriminate H.
Qed.

(** ** Container counts *)


Lemma sumOver_cons f s l : sumOver f (s :: l) = f s + sumOver f l.
Proof. reflexivity. Qed.


Section StatusByContainers.

Import OperationStatusDashboard.

Lemma hasOwnProperty_keys {V : Type} (o : list (string * V)) (k : string) :
  Obj.hasOwnProperty o k = existsb (String.eqb k) (Obj.keys o).
Proof.
  unfold Obj.hasOwnProperty, Obj.keys.
  induction o as [|[k0 v] o IH]; simpl; [done|].
  destruct (String.eqb k k0); simpl; [done|exact IH].
Qed.








End StatusByContainers.

Section ContainerVolumeByWarehouse.
Context {host : Host}.

Import OperationStatusDashboard.




End ContainerVolumeByWarehouse.

Lemma sumOver_zero (f : Shipment -> Z) (l : list Shipment) :
  (forall s, In s l -> f s = 0) -> sumOver f l = 0.
Proof.
  induction l as [|x l IH]; intros H; [reflexivity|].
  rewrite sumOver_cons, IH, (H x); [lia|by left|].
  intros s Hs. apply H. by right.
Qed.

Section CargoVolume.
Context {host : Host}.

Import CargosInTransitDashboard.

Lemma volumeStep_split months terminals s :
  volumeStep (months, terminals) s =
  (monthsStep months s, terminalsStep terminals s).
Proof.
  unfold volumeStep, monthsStep, terminalsStep, volumeSlot.
  destruct (actualEta s) as [eta|]; [|done].
  destruct (negb (truthyStr (Some eta))); [done|].
  destruct (Date_parse eta) as [date|]; [|done].
  destruct (6 <=? getMonth date); [|done].
  destruct (monthLabels !! Z.to_nat (getMonth date - 6)); [|done].
  by destruct (0 <? containerVolume s).
Qed.

Lemma volume_fold_split (l : list Shipment) months terminals :
  foldl volumeStep (months, terminals) l =
  (foldl monthsStep months l, foldl terminalsStep terminals l).
Proof.
  revert months terminals. induction l as [|s l IH]; intros; cbn [foldl]; [done|].
  by rewrite volumeStep_split, IH.
Qed.

Lemma addToCell_volume cells t' cv s t :
  default 0 (volume <$> Obj.get t (addToCell t' cv s cells)) =
  default 0 (volume <$> Obj.get t cells) + (if String.eqb t' t then cv else 0).
Proof.
  unfold addToCell. rewrite ObjFacts.get_alter.
  destruct (String.eqb_spec t' t) as [<-|Hne].
  - destruct (Obj.get t' cells) as [e|] eqn:Hget.
    + rewrite Hget. reflexivity.
    + rewrite ObjFacts.get_set, String.eqb_refl. reflexivity.
  - destruct (Obj.get t' cells) as [e|] eqn:Hget; [lia|].
    rewrite ObjFacts.get_set.
    destruct (String.eqb_spec t' t); [done|lia].
Qed.

Lemma monthsStep_keys months s :
  Obj.keys (monthsStep months s) = Obj.keys months.
Proof.
  unfold monthsStep. destruct (volumeSlot s) as [[mn t]|]; [|done].
  destruct (0 <? containerVolume s); [apply ObjFacts.keys_alter|done].
Qed.

Lemma volumeSlot_label s mn t :
  volumeSlot s = Some (mn, t) -> In mn monthLabels.
Proof.
  unfold volumeSlot. intros H.
  destruct (actualEta s) as [eta|]; [|done].
  destruct (negb (truthyStr (Some eta))); [done|].
  destruct (Date_parse eta) as [date|]; [|done].
  destruct (6 <=? getMonth date); [|done].
  destruct (monthLabels !! Z.to_nat (getMonth date - 6)) as [mn'|] eqn:Hl; [|done].
  injection H as <- _. apply list_elem_of_In. by eapply list_elem_of_lookup_2.
Qed.

Lemma get_in_keys {V : Type} (k : string) (o : list (string * V)) :
  Obj.get k o = None -> ~ In k (Obj.keys o).
Proof.
  unfold Obj.keys. induction o as [|[k0 v] o IH]; simpl; [tauto|].
  destruct (String.eqb_spec k k0) as [->|Hk]; [done|].
  intros Hget [Hin|Hin]; [congruence|by apply IH].
Qed.

Lemma monthsStep_cellVolume months s i m t :
  Obj.keys months = monthLabels -> monthLabels !! i = Some m ->
  cellVolume (monthsStep months s) m t =
  cellVolume months m t + volumeContribution t i s.
Proof.
  intros Hkeys Hm. unfold monthsStep, volumeContribution. rewrite Hm.
  destruct (volumeSlot s) as [[mn t']|] eqn:Hslot; [|lia].
  destruct (0 <? containerVolume s); [|rewrite andb_false_r; lia].
  rewrite andb_true_r. unfold cellVolume, cellAt.
  rewrite ObjFacts.get_alter.
  destruct (String.eqb_spec mn m) as [->|Hne]; cbn [andb]; [|lia].
  destruct (Obj.get m months) as [cells|] eqn:Hget.
  - simpl. apply addToCell_volume.
  - exfalso. apply (get_in_keys _ _ Hget).
    rewrite Hkeys. by eapply volumeSlot_label.
Qed.

Lemma months_fold (l : list Shipment) months i m t :
  Obj.keys months = monthLabels -> monthLabels !! i = Some m ->
  cellVolume (foldl monthsStep months l) m t =
  cellVolume months m t + sumOver (volumeContribution t i) l.
Proof.
  revert months. induction l as [|s l IH]; intros months Hkeys Hm; simpl.
  - unfold sumOver, sumZ. simpl. lia.
  - rewrite IH by (by rewrite ?monthsStep_keys).
    rewrite (monthsStep_cellVolume _ _ i) by done. rewrite sumOver_cons. lia.
Qed.

Lemma setAdd_In x y l : In y (setAdd x l) <-> y = x \/ In y l.
Proof.
  unfold setAdd. destruct (existsb (String.eqb x) l) eqn:E.
  - split; [by right|]. intros [->|H]; [|done].
    apply existsb_exists in E as (z & Hz & Heq).
    apply String.eqb_eq in Heq. by subst.
  - rewrite in_app_iff. simpl. naive_solver.
Qed.

Lemma terminals_fold_mono (l : list Shipment) terminals t :
  In t terminals -> In t (foldl terminalsStep terminals l).
Proof.
  revert terminals. induction l as [|s l IH]; intros terminals H; simpl; [done|].
  apply IH. unfold terminalsStep. destruct (volumeSlot s) as [[mn t']|]; [|done].
  apply setAdd_In. by right.
Qed.

Lemma terminals_fold_slot (l : list Shipment) terminals s mn t :
  In s l -> volumeSlot s = Some (mn, t) ->
  In t (foldl terminalsStep terminals l).
Proof.
  revert terminals. induction l as [|x l IH]; intros terminals Hin Hslot; [done|].
  simpl. destruct Hin as [->|Hin]; [|by apply IH].
  apply terminals_fold_mono. unfold terminalsStep. rewrite Hslot.
  apply setAdd_In. by left.
Qed.

Lemma find_dataset (mk : string -> Dataset) (t : string) (L : list string) :
  (forall x, datasetLabel (mk x) = x) ->
  List.find (fun ds => String.eqb (datasetLabel ds) t) (map mk L) =
  if existsb (String.eqb t) L then Some (mk t) else None.
Proof.
  intros Hmk. induction L as [|x L IH]; simpl; [done|].
  rewrite Hmk, (String.eqb_sym t x).
  destruct (String.eqb_spec x t) as [->|_]; [done|apply IH].
Qed.

Lemma existsb_sortStrings t (L : list string) :
  existsb (String.eqb t) (sortStrings L) = existsb (String.eqb t) L.
Proof.
  assert (Hiff : forall L', existsb (String.eqb t) L' = true <-> In t L').
  { intros L'. rewrite existsb_exists. split.
    - intros (x & Hx & Heq). apply String.eqb_eq in Heq. by subst.
    - intros H. exists t. by rewrite String.eqb_refl. }
  apply eq_true_iff_eq. rewrite !Hiff, <- !list_elem_of_In.
  unfold sortStrings. by rewrite merge_sort_Permutation.
Qed.

Lemma volumeInit_keys : Obj.keys volumeInit.1 = monthLabels.
Proof. reflexivity. Qed.

Lemma volumeInit_cellVolume m t : cellVolume volumeInit.1 m t = 0.
Proof.
  unfold cellVolume, cellAt. simpl.
  repeat match goal with
  | |- context [String.eqb m ?k] => destruct (String.eqb m k); [reflexivity|]
  end.
  reflexivity.
Qed.

(** The bar of a terminal in a month is the sum of what the records add
    to it. *)
Lemma cargoVolumeDataStack_sum (l : list Shipment) (t : string) (i : nat) :
  volumeOf (cargoVolumeDataStack l) t i = sumOver (volumeContribution t i) l.
Proof.
  unfold cargoVolumeDataStack, volumeInit.
  rewrite volume_fold_split.
  set (months := foldl monthsStep _ l). set (terminals := foldl terminalsStep [] l).
  unfold volumeOf. cbn [datasets].
  rewrite (find_dataset
             (fun terminal =>
                {| datasetLabel := terminal;
                   data := map (fun m => orNum (volume <$> cellAt months m terminal) 0)
                               monthLabels;
                   terminals := map (fun _ => terminal) monthLabels;
                   datasetShipments :=
                     map (fun m => default [] (cellShipments <$> cellAt months m terminal))
                         monthLabels |})) by done.
  rewrite existsb_sortStrings.
  destruct (existsb (String.eqb t) terminals) eqn:Hin.
  - cbn [data].
    change (map (fun m => orNum (volume <$> cellAt months m t) 0) monthLabels)
      with ((fun m => orNum (volume <$> cellAt months m t) 0) <$> monthLabels).
    rewrite list_lookup_fmap.
    destruct (monthLabels !! i) as [m|] eqn:Hm; simpl.
    + pose proof (months_fold l volumeInit.1 i m t volumeInit_keys Hm) as H.
      rewrite volumeInit_cellVolume in H.
      change (foldl monthsStep volumeInit.1 l) with months in H.
      unfold cellVolume in H.
      destruct (cellAt months m t) as [c|]; cbn [fmap option_fmap option_map default orNum] in *;
        [|lia].
      unfold Datatypes.id in H. destruct (Z.eqb_spec (volume c) 0); lia.
    + symmetry. apply sumOver_zero. intros s _.
      unfold volumeContribution. by rewrite Hm.
  - symmetry. apply sumOver_zero. intros s Hs.
    unfold volumeContribution.
    destruct (monthLabels !! i) as [m|]; [|done].
    destruct (volumeSlot s) as [[mn t']|] eqn:Hslot; [|done].
    destruct (String.eqb_spec t' t) as [->|_]; [|by rewrite andb_false_r].
    exfalso.
    assert (Ht : In t terminals) by (by eapply terminals_fold_slot).
    assert (existsb (String.eqb t) terminals = true); [|congruence].
    apply existsb_exists. exists t. by rewrite String.eqb_refl.
Qed.

End CargoVolume.







(** ** Terminal names *)

Section TerminalNames.
Context {host : Host}.

(** A name whose folded form is [folded] and that is not empty is
    normalised as the tests on [folded] say. *)
Lemma normalizeTerminalName_folded (name folded : string) :
  name <> EmptyString -> lowerNameOf name = folded ->
  normalizeTerminalName (Some name) =
  if includes folded "tecon" then "TECON"
  else if includes folded "teca" then "TECA"
  else if includes folded "clia" && includes folded "emporio" then "CLIA Empório"
  else if includes folded "intermaritima" then "Intermaritima"
  else if includes folded "tpc" then "TPC"
  else name.
Proof.
  intros Hne <-. unfold normalizeTerminalName.
  by destruct (String.eqb_spec name EmptyString).
Qed.

End TerminalNames.

(** C8. Normalising a terminal name twice gives what normalising it once
    gives, for every name (the absent name included). *)
Theorem normalizeTerminalName_idempotent {host : Host}
    (Hfold : foldsCanonical host) (name : option string) :
  normalizeTerminalName (Some (normalizeTerminalName name)) =
  normalizeTerminalName name.
Proof.
  destruct Hfold as (Htecon & Hteca & Hclia & Hinter & Htpc & Hna).
  assert (Fna : normalizeTerminalName (Some "N/A") = "N/A")
    by (by rewrite (normalizeTerminalName_folded "N/A" "n/a" ltac:(discriminate) Hna)).
  destruct name as [name|]; [|exact Fna].
  destruct (String.eqb_spec name EmptyString) as [->|Hne]; [exact Fna|].
  rewrite (normalizeTerminalName_folded name _ Hne eq_refl).
  destruct (includes (lowerNameOf name) "tecon") eqn:E1.
  { by rewrite (normalizeTerminalName_folded "TECON" "tecon" ltac:(discriminate) Htecon). }
  destruct (includes (lowerNameOf name) "teca") eqn:E2.
  { by rewrite (normalizeTerminalName_folded "TECA" "teca" ltac:(discriminate) Hteca). }
  destruct (includes (lowerNameOf name) "clia" &&
            includes (lowerNameOf name) "emporio") eqn:E3.
  { by rewrite (normalizeTerminalName_folded "CLIA Empório" "clia emporio" ltac:(discriminate) Hclia). }
  destruct (includes (lowerNameOf name) "intermaritima") eqn:E4.
  { by rewrite (normalizeTerminalName_folded "Intermaritima" "intermaritima" ltac:(discriminate) Hinter). }
  destruct (includes (lowerNameOf name) "tpc") eqn:E5.
  { by rewrite (normalizeTerminalName_folded "TPC" "tpc" ltac:(discriminate) Htpc). }
  rewrite (normalizeTerminalName_folded name _ Hne eq_refl).
  by rewrite E1, E2, E3, E4, E5.
Qed.

Lemma normalizeTerminalName_idempotent_witness :
  foldsCanonical Reference.host /\
  @normalizeTerminalName Reference.host
    (Some (@normalizeTerminalName Reference.host (Some "Clia Empório Salvador"))) =
  @normalizeTerminalName Reference.host (Some "Clia Empório Salvador").
Proof.
  assert (H : foldsCanonical Reference.host) by (repeat split; reflexivity).
  split; [exact H|].
  exact (@normalizeTerminalName_idempotent Reference.host H
           (Some "Clia Empório Salvador")).
Defined.

(** ** Line chart: the zoom window *)

Section Zoom.

Import LineChart.

Variable data : list LinePoint.
Hypothesis nonempty : data <> [].

Lemma len_pos : 1 <= len data.
Proof. unfold len. destruct data; [done|simpl; lia]. Qed.

Lemma initialViewRange_inBounds : inBounds data (initialViewRange data).
Proof.
  pose proof len_pos. unfold inBounds, initialViewRange. simpl.
  destruct (Z.ltb_spec 0 (len data)); lia.
Qed.

Lemma handleZoomIn_small (v : ViewRange) :
  end_ v - start v < 2 -> handleZoomIn data v = v.
Proof.
  intros H. unfold handleZoomIn.
  by destruct (Z.ltb_spec (end_ v - start v) 2); [|lia].
Qed.

Lemma handleZoomIn_large (v : ViewRange) :
  inBounds data v -> 2 <= end_ v - start v ->
  let r := end_ v - start v in
  let v' := handleZoomIn data v in
  points v' = Z.max 2 (Math_ceil_div (2 * r) 3) /\
  2 <= points v' < points v /\
  start v' = centerOf v - points v' / 2 /\
  start v <= start v' /\ end_ v' <= end_ v /\
  start v' <= centerOf v <= end_ v'.
Proof.
  intros (H0 & H1 & H2) Hr r v'. subst v'.
  unfold handleZoomIn, points, centerOf, Math_ceil_div. fold r.
  destruct (Z.ltb_spec r 2); [lia|]. cbn [start end_].
  subst r. Z.div_mod_to_equations. lia.
Qed.

Lemma handleZoomIn_inBounds (v : ViewRange) :
  inBounds data v -> inBounds data (handleZoomIn data v).
Proof.
  intros Hv. destruct (Z.lt_ge_cases (end_ v - start v) 2) as [Hr|Hr].
  - by rewrite handleZoomIn_small.
  - pose proof (handleZoomIn_large v Hv Hr) as H. cbv zeta in H.
    destruct Hv as (H0 & H1 & H2). unfold inBounds, points in *. lia.
Qed.


Lemma handleZoomOut_inBounds (v : ViewRange) :
  inBounds data v -> inBounds data (handleZoomOut data v).
Proof.
  intros (H0 & H1 & H2). pose proof len_pos.
  unfold handleZoomOut, inBounds.
  destruct (Z.leb_spec (len data - 1) (end_ v - start v)); [done|].
  cbn [start end_].
  match goal with
  | |- context [Z.ltb ?a ?b] => destruct (Z.ltb_spec a b)
  end; cbn [start end_]; Z.div_mod_to_equations; lia.
Qed.


Lemma step_inBounds (v : ViewRange) (a : ZoomAction) :
  inBounds data v -> inBounds data (step data v a).
Proof.
  intros Hv. destruct a; simpl.
  - by apply handleZoomIn_inBounds.
  - by apply handleZoomOut_inBounds.
  - apply initialViewRange_inBounds.
Qed.


End Zoom.





Example zoom_out_of_two_points :
  LineChart.handleZoomOut twelvePoints {| LineChart.start := 3; LineChart.end_ := 4 |} =
  {| LineChart.start := 2; LineChart.end_ := 3 |}.
Proof. reflexivity. Qed.

(** ** Spreadsheet import *)

Section ImportMapper.
Context {host : Host}.

Import UploadModal.







End ImportMapper.

Section ImportMapperFields.
Context {host : Host}.

Import UploadModal.








End ImportMapperFields.




(** ** The aggregates on five records *)

Example filteredShipments_2024 :
  id <$> @OperationStatusDashboard.filteredShipments Reference.host exampleRecords
           filter2024 =
  ["a"; "b"; "c"; "d"].
Proof. reflexivity. Qed.

Example statusByBLsData_example :
  (fun e => (label e, value e, id <$> shipments e)) <$>
    OperationStatusDashboard.statusByBLsData exampleRecords =
  [("IN TRANSIT", 1, ["a"]); ("AT THE PORT", 2, ["b"; "d"]);
   ("DI REGISTERED", 0, []); ("CARGO CLEARED", 0, [])].
Proof. reflexivity. Qed.

Example statusByContainersData_example :
  (fun e => (label e, value e)) <$>
    OperationStatusDashboard.statusByContainersData_part_000 exampleRecords =
  [("IN TRANSIT", 3); ("AT THE PORT", 1); ("DI REGISTERED", 0);
   ("CARGO CLEARED", 0); ("CARGO DELIVERED", 1)].
Proof. reflexivity. Qed.

Example containerVolumeByWarehouseData_example :
  (fun e => (label e, value e)) <$>
    @OperationStatusDashboard.containerVolumeByWarehouseData Reference.host
      exampleRecords =
  [("TECON", 3); ("Intermaritima", 0); ("TPC", 3)].
Proof. reflexivity. Qed.

Example cargoVolumeDataStack_example :
  (fun d => (CargosInTransitDashboard.datasetLabel d, CargosInTransitDashboard.data d)) <$>
    CargosInTransitDashboard.datasets
      (@CargosInTransitDashboard.cargoVolumeDataStack Reference.host exampleRecords) =
  [("Intermaritima", [0; 0; 0; 0; 0; 0]); ("TECON", [0; 3; 0; 0; 0; 0]);
   ("TPC", [0; 0; 0; 0; 0; 0])].
Proof. vm_compute. reflexivity. Qed.

Example zoom_in_twice :
  LineChart.run twelvePoints [LineChart.ZoomIn; LineChart.ZoomIn] =
  {| LineChart.start := 2; LineChart.end_ := 6 |}.
Proof. reflexivity. Qed.

Example excel_serial_45000 :
  @parseDateFromExcel Reference.host (JNumber 45000) = "2023-03-15".
Proof. vm_compute. reflexivity. Qed.

(** ** Sorting *)

Section ArraySort.
Context {A : Type}.

Lemma sortInsert_perm (compare : A -> A -> Z) (x : A) (l : list A) :
  sortInsert compare x l ≡ₚ x :: l.
Proof.
  induction l as [|y l IH]; simpl; [done|].
  destruct (compare y x <=? 0); [|done].
  rewrite IH. apply Permutation_swap.
Qed.

Lemma Array_sort_perm (compare : A -> A -> Z) (l : list A) :
  Array_sort compare l ≡ₚ l.
Proof.
  unfold Array_sort. induction l as [|x l IH] using rev_ind; [done|].
  rewrite foldl_app. simpl. rewrite sortInsert_perm, IH.
  by rewrite Permutation_app_comm.
Qed.

Lemma sortInsert_sorted (key : A -> Z) (x : A) (l : list A) :
  StronglySorted (fun a b => key b <= key a) l ->
  StronglySorted (fun a b => key b <= key a) (sortInsert (fun a b => key b - key a) x l).
Proof.
  induction 1 as [|y l Hl IH Hy]; simpl.
  - repeat constructor.
  - destruct (Z.leb_spec (key x - key y) 0).
    + constructor; [exact IH|].
      rewrite Forall_forall in *. intros z Hz.
      rewrite sortInsert_perm in Hz. apply elem_of_cons in Hz.
      destruct Hz as [->|Hz]; [lia|by apply Hy].
    + constructor; [by constructor|].
      constructor; [lia|].
      rewrite Forall_forall in *. intros z Hz. specialize (Hy z Hz). lia.
Qed.

Lemma Array_sort_sorted (key : A -> Z) (l : list A) :
  StronglySorted (fun a b => key b <= key a) (Array_sort (fun a b => key b - key a) l).
Proof.
  unfold Array_sort. induction l as [|x l IH] using rev_ind; [constructor|].
  rewrite foldl_app. simpl. by apply sortInsert_sorted.
Qed.

End ArraySort.



(** X1. In a doughnut chart and in a horizontal bar chart the entries drawn
    are exactly the entries with a positive value, each as often as it is
    given, in order of value with the largest first. *)
Theorem sortedData_positive_largest_first (entries : list ChartEntry) :
  largestFirst (DoughnutChart.sortedData entries) /\
  DoughnutChart.sortedData entries ≡ₚ List.filter (fun d => 0 <? value d) entries.
Proof.
  split.
  - apply (Array_sort_sorted value).
  - apply Array_sort_perm.
Qed.



(** ** The filter sidebar *)

Lemma foldl_setAddZ_elem (l acc : list Z) (y : Z) :
  y ∈ foldl (fun set y => setAddZ y set) acc l <-> y ∈ acc \/ y ∈ l.
Proof.
  revert acc. induction l as [|x l IH]; intros acc; simpl.
  - rewrite elem_of_nil. tauto.
  - rewrite IH, elem_of_cons. unfold setAddZ.
    destruct (existsb (Z.eqb x) acc) eqn:E.
    + apply existsb_exists in E as (z & Hz & Hxz). apply Z.eqb_eq in Hxz. subst z.
      apply list_elem_of_In in Hz. split; [tauto|]. intros [?|[->|?]]; tauto.
    + rewrite elem_of_app, list_elem_of_singleton. tauto.
Qed.

Lemma foldl_setAddZ_NoDup (l acc : list Z) :
  NoDup acc -> NoDup (foldl (fun set y => setAddZ y set) acc l).
Proof.
  revert acc. induction l as [|x l IH]; intros acc Hacc; simpl; [done|].
  apply IH. unfold setAddZ. destruct (existsb (Z.eqb x) acc) eqn:E; [done|].
  apply NoDup_app. split_and!; [done| |apply NoDup_singleton].
  intros z Hz ->%list_elem_of_singleton.
  apply not_true_iff_false in E. apply E, existsb_exists.
  exists x. split; [by apply list_elem_of_In|apply Z.eqb_refl].
Qed.

Lemma descending_strict (l : list Z) :
  StronglySorted (fun a b => b <= a) l -> NoDup l -> strictlyDescending l.
Proof.
  unfold strictlyDescending.
  induction 1 as [|x l Hl IH Hx]; intros Hnd; [constructor|].
  apply NoDup_cons in Hnd as [Hxl Hnd]. constructor; [by apply IH|].
  rewrite Forall_forall in *. intros z Hz. specialize (Hx z Hz).
  assert (z <> x) by (intros ->; done). lia.
Qed.

Section Sidebar.
Context {host : Host}.
Import KPIFilterSidebar.

Lemma matches_onlyYear (f : DateSourceField) (y : Z) (s : Shipment) :
  matchesFilters (dateStringOf f) (onlyYear y) s = true <-> yearOf f s = Some y.
Proof.
  unfold matchesFilters, yearOf, onlyYear. cbn [cargo year month].
  destruct (dateStringOf f s) as [d|]; [|done].
  destruct (truthyStr (Some d)); simpl; [|done].
  destruct (Date_parse d) as [t|]; [|done].
  rewrite andb_true_r. change (len [] =? 0) with true. simpl.
  rewrite Z.eqb_eq. split; congruence.
Qed.

Lemma years_elem (f : DateSourceField) (ships : list Shipment) (y : Z) :
  y ∈ years f ships <-> y <> 0 /\ exists s, s ∈ ships /\ yearOf f s = Some y.
Proof.
  unfold years. rewrite Array_sort_perm, foldl_setAddZ_elem, elem_of_nil.
  rewrite list_elem_of_omap. split.
  - intros [[]|(o & Ho & Hk)]. apply list_elem_of_fmap in Ho as (s & -> & Hs).
    unfold KPIsPage.keepYear in Hk. destruct (yearOf f s) as [y'|] eqn:E; [|done].
    destruct (Z.eqb_spec y' 0); [done|]. injection Hk as <-. eauto.
  - intros (Hy & s & Hs & E). right. exists (Some y). split.
    + apply list_elem_of_fmap. eauto.
    + simpl. by destruct (Z.eqb_spec y 0).
Qed.

Lemma years_descending (f : DateSourceField) (ships : list Shipment) :
  strictlyDescending (years f ships).
Proof.
  unfold years. apply descending_strict.
  - apply (Array_sort_sorted (fun y : Z => y)).
  - rewrite Array_sort_perm. apply foldl_setAddZ_NoDup, NoDup_nil_2.
Qed.

Lemma filter_nonempty {B : Type} (p : B -> bool) (l : list B) :
  List.filter p l <> [] <-> exists x, x ∈ l /\ p x = true.
Proof.
  induction l as [|x l IH]; simpl.
  - split; [done|]. intros (x & Hx & _). by apply elem_of_nil in Hx.
  - destruct (p x) eqn:E.
    + split; [|done]. intros _. exists x. split; [left|done].
    + rewrite IH. split; intros (z & Hz & Hp).
      * exists z. split; [by right|done].
      * apply elem_of_cons in Hz as [->|Hz]; [congruence|eauto].
Qed.

Lemma foldl_max_spec (l : list Z) (a : Z) :
  (foldl Z.max a l = a \/ foldl Z.max a l ∈ l) /\
  a <= foldl Z.max a l /\ Forall (fun x => x <= foldl Z.max a l) l.
Proof.
  revert a. induction l as [|x l IH]; intros a; simpl.
  - split_and!; [by left|lia|constructor].
  - destruct (IH (Z.max a x)) as (Hin & Hle & Hall). split_and!.
    + destruct Hin as [Hin|Hin]; [|right; by right].
      destruct (Z.max_spec a x) as [[? E]|[? E]]; rewrite E in *.
      * right. rewrite Hin. left.
      * by left.
    + lia.
    + constructor; [lia|done].
Qed.

Lemma latestYear_spec (currentYear : Z) (ships : list Shipment) :
  match omap KPIsPage.keepYear (map KPIsPage.etaYear ships) with
  | [] => KPIsPage.latestYear currentYear ships = currentYear
  | _ :: _ =>
      KPIsPage.latestYear currentYear ships ∈ years ActualEta ships /\
      forall y, y ∈ years ActualEta ships -> y <= KPIsPage.latestYear currentYear ships
  end.
Proof.
  assert (Hy : forall y, y ∈ years ActualEta ships <->
                         y ∈ omap KPIsPage.keepYear (map KPIsPage.etaYear ships)).
  { intros y. unfold years.
    rewrite Array_sort_perm, foldl_setAddZ_elem, elem_of_nil. tauto. }
  unfold KPIsPage.latestYear.
  destruct (omap KPIsPage.keepYear (map KPIsPage.etaYear ships)) as [|y ys]; [done|].
  destruct (foldl_max_spec ys y) as (Hin & Hle & Hall). split.
  - apply Hy. destruct Hin as [->|Hin]; [left|by right].
  - intros z Hz. apply Hy in Hz. apply elem_of_cons in Hz as [->|Hz]; [done|].
    rewrite Forall_forall in Hall. by apply Hall.
Qed.

End Sidebar.

(** X3. The years the sidebar offers go strictly down, so none is offered
    twice; a year is offered exactly when it is not 0 and selecting it, with
    no cargo type and no month selected, leaves at least one record. *)
Theorem years_offered {host : Host} (f : KPIFilterSidebar.DateSourceField)
    (ships : list Shipment) :
  strictlyDescending (KPIFilterSidebar.years f ships) /\
  forall y, y ∈ KPIFilterSidebar.years f ships <->
            y <> 0 /\
            List.filter (matchesFilters (KPIFilterSidebar.dateStringOf f) (onlyYear y))
                        ships <> [].
Proof.
  split; [apply years_descending|]. intros y.
  rewrite years_elem, filter_nonempty.
  split; intros (Hy & s & Hs & E); (split; [done|]); exists s; split; try done;
    by apply matches_onlyYear.
Qed.

(** X4. The year the KPI page starts with is the first year the sidebar
    offers for the ETA; when the sidebar has no year to offer it is the
    year of the clock. *)
Theorem latestYear_first_offered {host : Host} (currentYear : Z)
    (ships : list Shipment) :
  KPIsPage.latestYear currentYear ships =
  default currentYear (head (KPIFilterSidebar.years KPIFilterSidebar.ActualEta ships)).
Proof.
  pose proof (latestYear_spec currentYear ships) as H.
  pose proof (years_descending KPIFilterSidebar.ActualEta ships) as Hd.
  assert (Hy : forall y, y ∈ KPIFilterSidebar.years KPIFilterSidebar.ActualEta ships <->
                         y ∈ omap KPIsPage.keepYear (map KPIsPage.etaYear ships)).
  { intros y. unfold KPIFilterSidebar.years.
    rewrite Array_sort_perm, foldl_setAddZ_elem, elem_of_nil. tauto. }
  destruct (omap KPIsPage.keepYear (map KPIsPage.etaYear ships)) as [|y0 ys].
  - destruct (KPIFilterSidebar.years KPIFilterSidebar.ActualEta ships) as [|z zs];
      [done|].
    exfalso. apply (elem_of_nil z), Hy. left.
  - destruct H as [Hin Hmax].
    destruct (KPIFilterSidebar.years KPIFilterSidebar.ActualEta ships) as [|z zs].
    { by apply elem_of_nil in Hin. }
    simpl. apply elem_of_cons in Hin as [E|Hin]; [done|].
    apply StronglySorted_inv in Hd as [_ Hd]. rewrite Forall_forall in Hd.
    specialize (Hd _ Hin). specialize (Hmax z ltac:(left)). lia.
Qed.

(** X5. When some record has an ETA that is a date in a year other than 0,
    the filters the KPI page starts with leave at least one record in the
    dashboards that filter by ETA. *)
Theorem initial_view_nonempty {host : Host} (currentYear : Z)
    (ships : list Shipment) (Hdated : Exists hasEtaYear ships) :
  CargosInTransitDashboard.filteredShipments ships
    (KPIsPage.initialFilters currentYear ships) <> [].
Proof.
  pose proof (latestYear_spec currentYear ships) as H.
  destruct (omap KPIsPage.keepYear (map KPIsPage.etaYear ships)) as [|y0 ys] eqn:E.
  - exfalso. apply Exists_exists in Hdated as (s & Hs & y & Hy & Hy0).
    apply (elem_of_nil y). rewrite <- E. apply list_elem_of_omap.
    exists (Some y). split; [|simpl; by destruct (Z.eqb_spec y 0)].
    apply list_elem_of_fmap. eauto.
  - destruct H as [Hin _]. apply years_elem in Hin as (_ & s & Hs & Hy).
    apply filter_nonempty. exists s. split; [done|].
    by apply (matches_onlyYear KPIFilterSidebar.ActualEta).
Qed.

Lemma initial_view_nonempty_witness :
  @CargosInTransitDashboard.filteredShipments Reference.host exampleRecords
    (@KPIsPage.initialFilters Reference.host 2026 exampleRecords) <> [].
Proof.
  apply initial_view_nonempty. apply Exists_cons_hd.
  exists 2024. split; [reflexivity|lia].
Defined.

Lemma existsb_eqb_filter (x c : string) (l : list string) :
  existsb (String.eqb x) (List.filter (fun c' => negb (String.eqb c' c)) l) =
  negb (String.eqb x c) && existsb (String.eqb x) l.
Proof.
  induction l as [|z l IH]; simpl; [by rewrite andb_false_r|].
  destruct (String.eqb_spec z c) as [->|Hz]; simpl; rewrite IH;
    destruct (String.eqb_spec x c) as [->|]; simpl; try done.
  by destruct (String.eqb_spec c z).
Qed.

(** X6. A click on a cargo type in the sidebar toggles that type in the
    selection and leaves every other type, the year and the month as they
    were. *)
Theorem cargo_click_toggles (filters : KpiFilters) (cargoType x : string) :
  selected (afterCargoClick filters cargoType) x =
    (if String.eqb x cargoType then negb (selected filters cargoType)
     else selected filters x) /\
  year (afterCargoClick filters cargoType) = year filters /\
  month (afterCargoClick filters cargoType) = month filters.
Proof.
  split; [|done].
  unfold selected, afterCargoClick, KPIFilterSidebar.handleCargoClick. simpl.
  destruct (existsb (String.eqb cargoType) (cargo filters)) eqn:E.
  - rewrite existsb_eqb_filter.
    destruct (String.eqb_spec x cargoType) as [->|]; simpl; rewrite ?E; done.
  - rewrite existsb_app. simpl. rewrite orb_false_r.
    destruct (String.eqb_spec x cargoType) as [->|]; simpl;
      rewrite ?E, ?orb_false_r; done.
Qed.

(** ** Group charts *)

Section GroupCharts.

Lemma incoterm_groups (l : list Shipment) (a b c : string) :
  a <> b -> a <> c -> b <> c -> a <> EmptyString -> b <> EmptyString ->
  c <> EmptyString ->
  foldl (fun groups s => pushIfOwn (incoterm s) s groups)
        [(a, []); (b, []); (c, [])] l =
  [(a, List.filter (hasIncoterm a) l); (b, List.filter (hasIncoterm b) l);
   (c, List.filter (hasIncoterm c) l)].
Proof.
  intros Hab Hac Hbc Ha Hb Hc.
  induction l as [|s l IH] using rev_ind; [reflexivity|].
  rewrite foldl_app, IH. cbn [foldl]. rewrite !List.filter_app. cbn [List.filter].
  unfold pushIfOwn, hasIncoterm, truthyStr, Obj.hasOwnProperty.
  destruct (incoterm s) as [k|]; [|by rewrite !app_nil_r].
  cbn [Obj.alter Obj.get existsb map fst].
  destruct (String.eqb_spec k EmptyString) as [->|Hk]; cbn [negb andb].
  - destruct (String.eqb_spec EmptyString a); [congruence|].
    destruct (String.eqb_spec EmptyString b); [congruence|].
    destruct (String.eqb_spec EmptyString c); [congruence|].
    by rewrite !app_nil_r.
  - simpl.
    repeat match goal with
    | |- context [String.eqb ?x ?y] =>
        destruct (String.eqb_spec x y); try congruence; subst; simpl
    end; rewrite ?app_nil_r; try reflexivity; congruence.
Qed.

Lemma cargoStatus_groups (l : list Shipment) :
  foldl CargosInTransitDashboard.shipmentStatusStep
        [("Doc Review", []); ("In Transit", []); ("At Port", [])] l =
  [("Doc Review", List.filter (hasStatus "DOCUMENT REVIEW") l);
   ("In Transit", List.filter (hasStatus "IN TRANSIT") l);
   ("At Port",
    List.filter (fun s => hasStatus "AT THE PORT" s || hasStatus "CARGO READY" s) l)].
Proof.
  induction l as [|s l IH] using rev_ind; [reflexivity|].
  rewrite foldl_app, IH. cbn [foldl]. rewrite !List.filter_app. cbn [List.filter].
  unfold CargosInTransitDashboard.shipmentStatusStep, statusIs, hasStatus.
  destruct (status s) as [st|]; [|simpl; by rewrite !app_nil_r].
  destruct (String.eqb_spec st "DOCUMENT REVIEW") as [->|];
    [simpl; by rewrite !app_nil_r|].
  destruct (String.eqb_spec st "IN TRANSIT") as [->|];
    [simpl; by rewrite !app_nil_r|].
  destruct (String.eqb_spec st "AT THE PORT") as [->|];
    [simpl; by rewrite !app_nil_r|].
  destruct (String.eqb_spec st "CARGO READY") as [->|];
    simpl; by rewrite !app_nil_r.
Qed.

Lemma docStatus_groups (l : list Shipment) :
  foldl (fun groups s => Obj.alter (fun l => l ++ [s]) "Approved" groups)
        [("Approved", []); ("Not Approved", [])] l =
  [("Approved", l); ("Not Approved", [])].
Proof.
  induction l as [|s l IH] using rev_ind; [reflexivity|].
  by rewrite foldl_app, IH.
Qed.

End GroupCharts.

(** X7. The incoterm chart of the cargos-in-transit dashboard has the three
    entries CIF, FOB, DAP, in this order, and the incoterm chart of the
    performance dashboard the same three entries in the order DAP, CIF, FOB.
    An entry holds, in the order of the input, the records whose incoterm
    is exactly its label; a record with another incoterm, or none, is in no
    entry. *)
Theorem incoterm_charts (ships : list Shipment) :
  CargosInTransitDashboard.shipmentsData ships =
    [entryOf "CIF" (hasIncoterm "CIF") ships;
     entryOf "FOB" (hasIncoterm "FOB") ships;
     entryOf "DAP" (hasIncoterm "DAP") ships] /\
  PerformanceDashboard.incotermData ships =
    [entryOf "DAP" (hasIncoterm "DAP") ships;
     entryOf "CIF" (hasIncoterm "CIF") ships;
     entryOf "FOB" (hasIncoterm "FOB") ships].
Proof.
  unfold CargosInTransitDashboard.shipmentsData, PerformanceDashboard.incotermData.
  split; by rewrite incoterm_groups.
Qed.

(** X8. The status chart of the cargos-in-transit dashboard has the three
    entries Doc Review, In Transit and At Port. They hold the records with
    status DOCUMENT REVIEW, with status IN TRANSIT, and with status
    AT THE PORT or CARGO READY; a record with any other status, or none, is
    in no entry. *)
Theorem cargo_status_chart (ships : list Shipment) :
  CargosInTransitDashboard.shipmentStatusData ships =
    [entryOf "Doc Review" (hasStatus "DOCUMENT REVIEW") ships;
     entryOf "In Transit" (hasStatus "IN TRANSIT") ships;
     entryOf "At Port"
       (fun s => hasStatus "AT THE PORT" s || hasStatus "CARGO READY" s) ships].
Proof.
  unfold CargosInTransitDashboard.shipmentStatusData.
  by rewrite cargoStatus_groups.
Qed.

(** X9. In the document status chart every record is counted as Approved:
    the entry Not Approved is always empty. *)
Theorem doc_status_all_approved (ships : list Shipment) :
  CargosInTransitDashboard.docStatusData ships =
    [{| label := "Approved"; value := len ships; shipments := ships |};
     {| label := "Not Approved"; value := 0; shipments := [] |}].
Proof.
  unfold CargosInTransitDashboard.docStatusData. by rewrite docStatus_groups.
Qed.

Section SegmentClick.
Context {host : Host}.

Lemma dashboard_status_value (ships : list Shipment) (l : string) (sts : list string) :
  In (l, sts) DashboardPage.statusConfig ->
  valueOf (DashboardPage.shipmentStatusData ships) l =
  len (List.filter (DashboardPage.statusIn sts) ships).
Proof.
  unfold DashboardPage.statusConfig. simpl.
  intros [E|[E|[E|[E|[]]]]]; injection E as <- <-; reflexivity.
Qed.

Lemma imports_after_click (rows : list ImportRow) (l st : string) :
  DashboardPage.handleSegmentClick l = st -> st <> "All" ->
  len (importsAfterClick rows l) =
  len (List.filter (hasStatus st) (map shipment rows)).
Proof.
  intros <- Hst. unfold importsAfterClick, ImportsPage.filteredShipments, len.
  f_equal. induction rows as [|r rows IH]; [reflexivity|]. simpl.
  unfold ImportsPage.matchesRow at 1. simpl.
  destruct (String.eqb_spec (DashboardPage.handleSegmentClick l) "All"); [done|].
  simpl. change (statusIs ?a ?b) with (hasStatus a b).
  destruct (hasStatus _ (shipment r)); simpl; by rewrite IH.
Qed.

Lemma statusIn_single (st : string) (s : Shipment) :
  st <> EmptyString -> DashboardPage.statusIn [st] s = hasStatus st s.
Proof.
  intros Hst. unfold DashboardPage.statusIn, hasStatus.
  destruct (status s) as [x|]; [|done]. simpl. rewrite orb_false_r.
  destruct (String.eqb_spec x st) as [->|]; [|by rewrite andb_false_r].
  by destruct (String.eqb_spec st EmptyString).
Qed.

Lemma atPort_cases (s : Shipment) :
  DashboardPage.statusIn ["AT THE PORT"; "CARGO READY"] s =
    hasStatus "AT THE PORT" s || hasStatus "CARGO READY" s /\
  hasStatus "AT THE PORT" s && hasStatus "CARGO READY" s = false.
Proof.
  unfold DashboardPage.statusIn, hasStatus.
  destruct (status s) as [st|]; [|done]. cbn [existsb].
  destruct (String.eqb_spec st "AT THE PORT") as [->|]; [done|].
  destruct (String.eqb_spec st "CARGO READY") as [->|]; [done|].
  by rewrite andb_false_r.
Qed.

Lemma atPort_split (l : list Shipment) :
  len (List.filter (DashboardPage.statusIn ["AT THE PORT"; "CARGO READY"]) l) =
  len (List.filter (hasStatus "AT THE PORT") l) +
  len (List.filter (hasStatus "CARGO READY") l).
Proof.
  unfold len. induction l as [|s l IH]; [reflexivity|]. cbn [List.filter].
  destruct (atPort_cases s) as [H1 H2].
  destruct (DashboardPage.statusIn _ s), (hasStatus "AT THE PORT" s),
    (hasStatus "CARGO READY" s); simpl in *; try done; lia.
Qed.

End SegmentClick.

(** X10. A click on a segment of the status chart of the dashboard page
    opens the imports list with a status filter. For Order Placed, In
    Transit and Delivered the list has as many rows as the segment counts.
    The segment At Port also counts the records with status CARGO READY,
    which the list it opens leaves out. *)
Theorem segment_click_list {host : Host} (rows : list ImportRow) :
  let ships := map shipment rows in
  let counted l := valueOf (DashboardPage.shipmentStatusData ships) l in
  counted "Order Placed" = len (importsAfterClick rows "Order Placed") /\
  counted "In Transit" = len (importsAfterClick rows "In Transit") /\
  counted "Delivered" = len (importsAfterClick rows "Delivered") /\
  counted "At Port" =
    len (importsAfterClick rows "At Port") +
    len (List.filter (hasStatus "CARGO READY") ships).
Proof.
  intros ships counted. unfold counted.
  rewrite (dashboard_status_value ships "Order Placed" ["ORDER PLACED"]),
          (dashboard_status_value ships "In Transit" ["IN TRANSIT"]),
          (dashboard_status_value ships "Delivered" ["CARGO DELIVERED"]),
          (dashboard_status_value ships "At Port" ["AT THE PORT"; "CARGO READY"])
    by (simpl; tauto).
  rewrite (imports_after_click rows "Order Placed" "ORDER PLACED"),
          (imports_after_click rows "In Transit" "IN TRANSIT"),
          (imports_after_click rows "Delivered" "CARGO DELIVERED"),
          (imports_after_click rows "At Port" "AT THE PORT") by done.
  fold ships. split_and!.
  - f_equal. apply List.filter_ext. intros s. by apply statusIn_single.
  - f_equal. apply List.filter_ext. intros s. by apply statusIn_single.
  - f_equal. apply List.filter_ext. intros s. by apply statusIn_single.
  - apply atPort_split.
Qed.

(** ** The visible part of a line chart *)

Section ZoomMore.
Import LineChart.
Variable data : list LinePoint.

Lemma inBounds_nonempty (v : ViewRange) : inBounds data v -> data <> [].
Proof.
  intros (H0 & H1 & H2) ->. unfold len in H2. simpl in H2. lia.
Qed.

Lemma two_points_step (v : ViewRange) (a : ZoomAction) :
  inBounds data v -> points v = 2 -> a <> ResetZoom ->
  inBounds data (step data v a) /\ points (step data v a) = 2 /\
  start (step data v a) <= start v.
Proof.
  intros Hb Hp Ha. split; [apply step_inBounds; eauto using inBounds_nonempty|].
  destruct Hb as (H0 & H1 & H2). unfold points in *.
  destruct a; [| |done]; simpl.
  - unfold handleZoomIn. destruct (Z.ltb_spec (end_ v - start v) 2); [lia|lia].
  - unfold handleZoomOut.
    destruct (Z.leb_spec (len data - 1) (end_ v - start v)); [lia|].
    replace (end_ v - start v) with 1 by lia.
    change (3 * 1 / 2 + 1) with 2. change (1 / 2) with 0.
    rewrite (Z.min_r (len data) 2) by lia. change (2 / 2) with 1. cbn [start end_].
    repeat match goal with
    | |- context [Z.ltb ?a ?b] => destruct (Z.ltb_spec a b)
    end; cbn [start end_]; lia.
Qed.

Lemma visibleData_slice (v : ViewRange) :
  inBounds data v ->
  visibleData data v =
  take (Z.to_nat (points v)) (drop (Z.to_nat (start v)) data).
Proof.
  intros (H0 & H1 & H2). unfold visibleData, Array_slice, points.
  destruct (Z.ltb_spec (start v) 0); [lia|].
  destruct (Z.ltb_spec (end_ v + 1) 0); [lia|].
  rewrite (Z.min_l (start v)), (Z.min_l (end_ v + 1)) by lia.
  do 2 f_equal. lia.
Qed.

End ZoomMore.

(** X11. The points a line chart draws are the points of the series from
    [start] to [end] of the window, both ends included: as many as the
    window has, and the i-th of them is the point of the series at
    [start + i]. *)
Theorem visibleData_window (series : list LinePoint) (v : LineChart.ViewRange)
    (Hb : inBounds series v) :
  len (LineChart.visibleData series v) = LineChart.points v /\
  forall i : nat, Z.of_nat i < LineChart.points v ->
    LineChart.visibleData series v !! i =
    series !! (Z.to_nat (LineChart.start v) + i)%nat.
Proof.
  rewrite visibleData_slice by done. destruct Hb as (H0 & H1 & H2).
  unfold LineChart.points, len in *. split.
  - rewrite length_take, length_drop. lia.
  - intros i Hi. rewrite lookup_take_lt by lia. by rewrite lookup_drop.
Qed.

Lemma visibleData_window_witness :
  len (LineChart.visibleData twelvePoints
         {| LineChart.start := 3; LineChart.end_ := 5 |}) = 3.
Proof.
  apply (visibleData_window twelvePoints {| LineChart.start := 3; LineChart.end_ := 5 |}).
  unfold inBounds, len, twelvePoints. simpl. lia.
Defined.

(** X12. A window of two points stays a window of two points under every
    sequence of presses of the zoom-in and zoom-out buttons, and never
    moves to the right: only the reset button widens it again. *)
Theorem two_point_window_stays (series : list LinePoint)
    (v : LineChart.ViewRange) (actions : list LineChart.ZoomAction)
    (Hb : inBounds series v) (Hp : LineChart.points v = 2)
    (Hnr : noReset actions = true) :
  LineChart.points (foldl (LineChart.step series) v actions) = 2 /\
  LineChart.start (foldl (LineChart.step series) v actions) <= LineChart.start v.
Proof.
  revert v Hb Hp. induction actions as [|a actions IH]; intros v Hb Hp; simpl.
  - split; [done|lia].
  - simpl in Hnr. apply andb_prop in Hnr as [Ha Hnr].
    destruct (two_points_step series v a Hb Hp) as (Hb' & Hp' & Hs').
    { by destruct a. }
    destruct (IH Hnr _ Hb' Hp') as [IH1 IH2]. split; [done|lia].
Qed.

Lemma two_point_window_stays_witness :
  LineChart.points
    (foldl (LineChart.step twelvePoints)
           {| LineChart.start := 3; LineChart.end_ := 4 |}
           [LineChart.ZoomOut; LineChart.ZoomIn; LineChart.ZoomOut]) = 2.
Proof.
  apply (two_point_window_stays twelvePoints
           {| LineChart.start := 3; LineChart.end_ := 4 |}
           [LineChart.ZoomOut; LineChart.ZoomIn; LineChart.ZoomOut]).
  - unfold inBounds, len, twelvePoints. simpl. lia.
  - reflexivity.
  - reflexivity.
Defined.

Lemma zoomInTimes_S (series : list LinePoint) (n : nat) (v : LineChart.ViewRange) :
  zoomInTimes series (S n) v = zoomInTimes series n (LineChart.handleZoomIn series v).
Proof. reflexivity. Qed.

(** X13. Pressing zoom-in again and again ends in a window of at most two
    points: as many presses as the window has points beyond two are
    enough, whatever the series. *)
Theorem zoom_in_reaches_two_points (series : list LinePoint)
    (v : LineChart.ViewRange) (n : nat)
    (Hb : inBounds series v) (Hn : LineChart.points v - 2 <= Z.of_nat n) :
  LineChart.points (zoomInTimes series n v) <= 2 /\
  inBounds series (zoomInTimes series n v).
Proof.
  pose proof (inBounds_nonempty series v Hb) as Hne.
  revert v Hb Hn. induction n as [|n IH]; intros v Hb Hn.
  - unfold zoomInTimes. simpl. split; [lia|done].
  - rewrite zoomInTimes_S.
    assert (Hb' : inBounds series (LineChart.handleZoomIn series v))
      by (apply handleZoomIn_inBounds; done).
    apply IH; [done|].
    destruct (Z.lt_ge_cases (LineChart.end_ v - LineChart.start v) 2) as [Hs|Hl].
    + rewrite handleZoomIn_small by done.
      unfold LineChart.points in *. lia.
    + pose proof (handleZoomIn_large series v Hb Hl) as (_ & Hlt & _).
      unfold LineChart.points in *. lia.
Qed.

Lemma zoom_in_reaches_two_points_witness :
  LineChart.points
    (zoomInTimes twelvePoints 10 {| LineChart.start := 0; LineChart.end_ := 11 |}) <= 2.
Proof.
  apply (zoom_in_reaches_two_points twelvePoints
           {| LineChart.start := 0; LineChart.end_ := 11 |} 10).
  - unfold inBounds, len, twelvePoints. simpl. lia.
  - unfold LineChart.points. simpl. lia.
Defined.

(** ** Writing the upload *)

Lemma byte_of_slash (c : ascii) : (byte_of c =? 47)%N = Ascii.eqb c "/".
Proof. by destruct c as [[] [] [] [] [] [] [] []]. Qed.

Lemma replaceSlashes_char (c d : ascii) :
  (if Ascii.eqb c "/" then "-"%char else c) =
  (if Ascii.eqb d "/" then "-"%char else d) <->
  Ascii.eqb c d || (slashOrDash c && slashOrDash d) = true.
Proof.
  unfold slashOrDash.
  destruct (Ascii.eqb_spec c "/"), (Ascii.eqb_spec d "/"),
    (Ascii.eqb_spec c "-"), (Ascii.eqb_spec d "-"), (Ascii.eqb_spec c d);
    subst; simpl; split; intros; congruence.
Qed.

(** X14. The document a record is written to is named by its reference
    with every slash replaced by a dash: the name has no slash and the
    length of the reference, and two references get the same document
    exactly when they agree up to slashes standing for dashes. *)
Theorem doc_id_of_reference (a b : string) :
  includes (App.replaceSlashes a) "/" = false /\
  String.length (App.replaceSlashes a) = String.length a /\
  (App.replaceSlashes a = App.replaceSlashes b <-> sameUpToSlash a b = true).
Proof.
  split_and!.
  - induction a as [|c a IH]; [reflexivity|].
    cbn [App.replaceSlashes includes]. rewrite IH, orb_false_r, byte_of_slash.
    cbn [String.prefix].
    destruct (Ascii.eqb_spec c "/") as [->|Hc]; [reflexivity|].
    destruct (ascii_dec "/" c); [congruence|reflexivity].
  - induction a as [|c a IH]; [reflexivity|]. simpl. by rewrite IH.
  - revert b. induction a as [|c a IH]; intros [|d b];
      cbn [App.replaceSlashes sameUpToSlash]; try done.
    change (ascii_of_N 45) with "-"%char.
    rewrite !byte_of_slash, andb_true_iff, <- IH, <- replaceSlashes_char.
    split; [intros [= -> ->]; done|intros [-> ->]; done].
Qed.

Section UploadIds.
Context {host : Host}.
Import UploadModal.



End UploadIds.


(** ** Distinct declarations *)

Lemma foldl_setAdd_spec (l acc : list string) :
  NoDup acc ->
  NoDup (foldl (fun set d => setAdd d set) acc l) /\
  (list_to_set (foldl (fun set d => setAdd d set) acc l) : gset string) =
  list_to_set acc ∪ list_to_set l.
Proof.
  revert acc. induction l as [|x l IH]; intros acc Hacc; simpl.
  - split; [done|set_solver].
  - unfold setAdd at 2 4. destruct (existsb (String.eqb x) acc) eqn:E.
    + destruct (IH acc Hacc) as [H1 H2]. split; [done|]. rewrite H2.
      apply existsb_exists in E as (z & Hz & Heq). apply String.eqb_eq in Heq.
      subst z. apply list_elem_of_In in Hz. set_solver.
    + assert (Hx : x ∉ acc).
      { intros Hx. apply not_true_iff_false in E. apply E, existsb_exists.
        exists x. split; [by apply list_elem_of_In|apply String.eqb_refl]. }
      destruct (IH (acc ++ [x])) as [H1 H2].
      { apply NoDup_app. split_and!; [done| |apply NoDup_singleton].
        intros z Hz ->%list_elem_of_singleton. done. }
      split; [done|]. rewrite H2, list_to_set_app_L. set_solver.
Qed.

Lemma foldl_setAdd_len (l : list string) :
  len (foldl (fun set d => setAdd d set) [] l) = distinct l.
Proof.
  destruct (foldl_setAdd_spec l [] NoDup_nil_2) as [H1 H2].
  unfold len, distinct. rewrite <- (size_list_to_set (C := gset string)) by done.
  rewrite H2. do 2 f_equal. set_solver.
Qed.

Lemma filterTruthy_di (l : list Shipment) : filterTruthy (map di l) = omap diKey l.
Proof.
  unfold filterTruthy. induction l as [|s l IH]; [reflexivity|].
  simpl. unfold diKey at 1, truthyStr at 1.
  destruct (di s) as [d|]; [|exact IH].
  destruct (String.eqb d EmptyString); simpl; [exact IH|f_equal; exact IH].
Qed.

(** X16. The figure [totalDIs] of the brokerage page is the number of
    distinct DI numbers of the records: records without a DI number are
    left out and a DI number on several records counts once. *)
Theorem totalDIs_distinct (ships : list Shipment) :
  BrokerageKPIsPage.totalDIs ships = distinct (omap diKey ships).
Proof.
  unfold BrokerageKPIsPage.totalDIs. by rewrite filterTruthy_di, foldl_setAdd_len.
Qed.

Section DisPerMonth.
Context {host : Host}.
Import PerformanceDashboard.

Lemma keys_set_new {V : Type} (k : string) (v : V) (o : list (string * V)) :
  Obj.get k o = None -> Obj.keys (Obj.set k v o) = Obj.keys o ++ [k].
Proof.
  unfold Obj.keys. induction o as [|[k0 v0] o IH]; simpl; [done|].
  destruct (String.eqb k k0); [done|]. intros H. simpl. f_equal. exact (IH H).
Qed.

Lemma keys_addUnique (d : string) (s : Shipment) (u : list (string * Shipment)) :
  Obj.keys (if Obj.hasOwnProperty u d then u else Obj.set d s u) =
  setAdd d (Obj.keys u).
Proof.
  unfold setAdd. rewrite <- hasOwnProperty_keys. unfold Obj.hasOwnProperty.
  destruct (Obj.get d u) eqn:E; [done|]. by apply keys_set_new.
Qed.

Lemma disPerMonthStep_lookup (acc : list (list (string * Shipment)))
    (s : Shipment) (m : nat) :
  disPerMonthStep acc s !! m =
  (fun u => match registeredIn m s with
            | Some d => if Obj.hasOwnProperty u d then u else Obj.set d s u
            | None => u
            end) <$> acc !! m.
Proof.
  assert (Hid : forall o : option (list (string * Shipment)), o = (fun u => u) <$> o)
    by (by intros []).
  unfold disPerMonthStep, registeredIn, diKey, monthOf, truthyStr.
  destruct (di s) as [d|]; [|apply Hid].
  destruct (diRegistrationDate s) as [r|];
    [|destruct (String.eqb d EmptyString); apply Hid].
  destruct (String.eqb d EmptyString); [apply Hid|].
  destruct (String.eqb r EmptyString); [apply Hid|]. cbn [negb andb].
  destruct (Date_parse r) as [t|]; [|apply Hid].
  pose proof (getMonth_range t) as Hr.
  destruct (Z.leb_spec 0 (getMonth t)); [|lia].
  destruct (Z.ltb_spec (getMonth t) 12); [|lia]. cbn [andb].
  destruct (decide (Z.to_nat (getMonth t) = m)) as [<-|Hm].
  - rewrite list_lookup_alter. by rewrite decide_True.
  - rewrite list_lookup_alter_ne by done. apply Hid.
Qed.

Lemma disPerMonth_keys (l : list Shipment) (acc : list (list (string * Shipment)))
    (m : nat) :
  Obj.keys <$> foldl disPerMonthStep acc l !! m =
  (fun u => foldl (fun set d => setAdd d set) (Obj.keys u)
                  (omap (registeredIn m) l)) <$> acc !! m.
Proof.
  revert acc. induction l as [|s l IH]; intros acc.
  - simpl. by destruct (acc !! m).
  - cbn [foldl omap]. rewrite IH, disPerMonthStep_lookup.
    destruct (acc !! m) as [u|]; [|done]. cbn [fmap option_fmap option_map].
    f_equal. destruct (registeredIn m s) as [d|] eqn:E; cbn [list_omap];
      rewrite E; cbn [foldl]; [by rewrite keys_addUnique|done].
Qed.

End DisPerMonth.

(** X17. The chart of DIs per month has one bar for each of the twelve
    months. The bar of a month counts the distinct DI numbers of the
    records registered in that month, and has one record behind each DI it
    counts. *)
Theorem disPerMonth_counts {host : Host} (ships : list Shipment) (m : nat) :
  length (PerformanceDashboard.disData (PerformanceDashboard.disPerMonth ships)) = 12%nat /\
  ((m < 12)%nat ->
   PerformanceDashboard.disData (PerformanceDashboard.disPerMonth ships) !! m =
     Some (distinct (omap (registeredIn m) ships)) /\
   len <$> PerformanceDashboard.disShipments (PerformanceDashboard.disPerMonth ships) !! m =
     Some (distinct (omap (registeredIn m) ships))).
Proof.
  unfold PerformanceDashboard.disPerMonth.
  cbn [PerformanceDashboard.disData PerformanceDashboard.disShipments].
  set (months := foldl PerformanceDashboard.disPerMonthStep (replicate 12 []) ships).
  assert (Hlen : forall l acc,
            length (foldl PerformanceDashboard.disPerMonthStep acc l) = length acc).
  { induction l as [|s l IH]; intros acc; [done|]. cbn [foldl]. rewrite IH.
    unfold PerformanceDashboard.disPerMonthStep.
    repeat match goal with
    | |- context [match ?x with _ => _ end] => destruct x
    end; by rewrite ?length_alter. }
  split.
  - rewrite length_map. unfold months. by rewrite Hlen.
  - intros Hm.
    pose proof (disPerMonth_keys ships (replicate 12 []) m) as Hk. fold months in Hk.
    rewrite lookup_replicate_2 in Hk by done. cbn in Hk.
    change (map ?f ?l) with (f <$> l). rewrite !list_lookup_fmap.
    destruct (months !! m) as [u|]; [|done]. cbn in *.
    injection Hk as Hk. unfold len at 1 2.
    rewrite length_fmap. rewrite <- foldl_setAdd_len, <- Hk.
    unfold len, Obj.keys. by rewrite length_fmap.
Qed.

Lemma disPerMonth_counts_witness :
  PerformanceDashboard.disData
    (@PerformanceDashboard.disPerMonth Reference.host exampleRecords) !! 2%nat =
  Some (distinct (omap (@registeredIn Reference.host 2) exampleRecords)).
Proof.
  apply (@disPerMonth_counts Reference.host exampleRecords 2). lia.
Defined.

(** ** Volume by transport mode *)

Section VolumeByTransport.
Import BrokerageKPIsPage.















End VolumeByTransport.



(** ** The two status charts *)

Section StatusCharts.
Import OperationStatusDashboard.



End StatusCharts.


(** ** Warehouse bars *)

Section WarehouseLabels.
Context {host : Host}.
Import OperationStatusDashboard.




End WarehouseLabels.



(** ** Days between two dates *)

(** X21. The days between two dates do not depend on the order of the two
    dates and are never negative; they are 0 exactly when the two dates are
    the same instant. *)
Theorem calculateDaysBetween_symmetric {host : Host} (a b : option string) :
  calculateDaysBetween a b = calculateDaysBetween b a /\
  (forall d, calculateDaysBetween a b = Some d -> 0 <= d) /\
  (forall s e ts te,
     a = Some s -> b = Some e ->
     Date_parse s = Some ts -> Date_parse e = Some te ->
     (calculateDaysBetween a b = Some 0 <-> ts = te)).
Proof.
  assert (Hceil : forall x, 0 <= x -> 0 <= Math_ceil_div x msPerDay /\
                            (Math_ceil_div x msPerDay = 0 <-> x = 0)).
  { intros x Hx. unfold Math_ceil_div, msPerDay.
    change (1000 * 60 * 60 * 24) with 86400000. split; [|split; intros H].
    - Z.div_mod_to_equations. lia.
    - revert H. Z.div_mod_to_equations. lia.
    - subst x. reflexivity. }
  split_and!.
  - unfold calculateDaysBetween.
    destruct a as [s|], b as [e|]; try reflexivity.
    rewrite (orb_comm (negb (truthyStr (Some e)))).
    destruct (negb (truthyStr (Some s)) || negb (truthyStr (Some e))); [done|].
    destruct (Date_parse s) as [ts|], (Date_parse e) as [te|]; try reflexivity.
    cbv zeta. replace (Z.abs (te - ts)) with (Z.abs (ts - te)) by lia. reflexivity.
  - intros d. unfold calculateDaysBetween.
    destruct a as [s|], b as [e|]; try done.
    destruct (negb (truthyStr (Some s)) || negb (truthyStr (Some e))); [done|].
    destruct (Date_parse s) as [ts|], (Date_parse e) as [te|]; try done.
    intros [= <-]. apply (Hceil (Z.abs (te - ts))). lia.
  - intros s e ts te -> -> Hs He.
    rewrite (calculateDaysBetween_parsed s e ts te Hs He).
    destruct (Hceil (Z.abs (te - ts)) ltac:(lia)) as [_ [H1 H2]].
    split.
    + intros [= H]. apply H1 in H. lia.
    + intros ->. f_equal. apply H2. lia.
Qed.

Lemma calculateDaysBetween_symmetric_witness :
  @calculateDaysBetween Reference.host (Some "2024-01-03") (Some "2024-01-03") = Some 0.
Proof.
  destruct (@calculateDaysBetween_symmetric Reference.host
              (Some "2024-01-03") (Some "2024-01-03")) as (_ & _ & H).
  apply (H "2024-01-03" "2024-01-03" 1704240000000 1704240000000); reflexivity.
Defined.

(** ** Terminal names *)

(** X22. A normalised terminal name is never empty: it is N/A, one of the
    five names of the terminals, or the name as it was given. *)
Theorem normalizeTerminalName_range {host : Host} (name : option string) :
  normalizeTerminalName name <> EmptyString /\
  (In (normalizeTerminalName name) canonicalNames \/
   name = Some (normalizeTerminalName name)).
Proof.
  unfold normalizeTerminalName, canonicalNames.
  destruct name as [name|]; [|split; [done|left; simpl; tauto]].
  destruct (String.eqb_spec name EmptyString) as [->|Hne];
    [split; [done|left; simpl; tauto]|].
  repeat match goal with
  | |- context [if ?c then _ else _] =>
      destruct c; [split; [done|left; simpl; tauto]|]
  end.
  split; [done|by right].
Qed.

(** ** Cargo volume per month *)

Section CargoVolumeTotals.
Context {host : Host}.
Import CargosInTransitDashboard.

Lemma volumeStep_no_slot st s : volumeSlot s = None -> volumeStep st s = st.
Proof.
  destruct st as [months terminals]. intros H.
  rewrite volumeStep_split. unfold monthsStep, terminalsStep. by rewrite H.
Qed.

Lemma volume_fold_insert_no_slot (l1 l2 : list Shipment) (s : Shipment) st :
  volumeSlot s = None ->
  foldl volumeStep st (l1 ++ s :: l2) = foldl volumeStep st (l1 ++ l2).
Proof.
  intros H. rewrite !foldl_app. cbn [foldl]. by rewrite volumeStep_no_slot.
Qed.

Lemma totals_lookup (d : StackData) (i : nat) :
  (i < length (labels d))%nat ->
  VerticalBarChart.totals d !! i =
  Some (sumZ (map (fun ds => orNum (data ds !! i) 0) (datasets d))).
Proof.
  intros Hi. unfold VerticalBarChart.totals. rewrite list_lookup_imap.
  destruct (lookup_lt_is_Some_2 (labels d) i Hi) as [x ->]. simpl. f_equal.
  assert (H : forall l a,
            foldl (fun sum ds => sum + orNum (data ds !! i) 0) a l =
            a + sumZ (map (fun ds => orNum (data ds !! i) 0) l)).
  { induction l as [|ds l IH]; intros a; simpl; [unfold sumZ; simpl; lia|].
    rewrite IH. unfold sumZ. simpl. lia. }
  rewrite H. lia.
Qed.

Lemma terminals_fold_NoDup (l : list Shipment) (terminals : list string) :
  NoDup terminals -> NoDup (foldl terminalsStep terminals l).
Proof.
  revert terminals. induction l as [|s l IH]; intros terminals Hnd; [done|].
  cbn [foldl]. apply IH. unfold terminalsStep.
  destruct (volumeSlot s) as [[mn t]|]; [|done].
  apply (foldl_setAdd_spec [t] terminals Hnd).
Qed.

Lemma sum_single (S : list string) (t' : string) (v : Z) :
  NoDup S ->
  sumZ (map (fun t => if String.eqb t' t then v else 0) S) =
  if existsb (String.eqb t') S then v else 0.
Proof.
  unfold sumZ. induction 1 as [|t S Ht Hnd IH]; [done|]. simpl. rewrite IH.
  destruct (String.eqb_spec t' t) as [->|]; simpl; [|done].
  destruct (existsb (String.eqb t) S) eqn:E; [|lia].
  exfalso. apply Ht. apply existsb_exists in E as (x & Hx & Heq).
  apply String.eqb_eq in Heq. subst x. by apply list_elem_of_In.
Qed.

Lemma sumOver_add (f g : Shipment -> Z) (l : list Shipment) :
  sumOver (fun s => f s + g s) l = sumOver f l + sumOver g l.
Proof.
  induction l as [|s l IH]; [reflexivity|].
  rewrite !sumOver_cons, IH. lia.
Qed.

Lemma sum_swap (S : list string) (f : string -> Shipment -> Z) (l : list Shipment) :
  sumZ (map (fun t => sumOver (f t) l) S) =
  sumOver (fun s => sumZ (map (fun t => f t s) S)) l.
Proof.
  induction S as [|t S IH].
  - symmetry. by apply sumOver_zero.
  - change (sumZ (map (fun t0 => sumOver (f t0) l) (t :: S)))
      with (sumOver (f t) l + sumZ (map (fun t0 => sumOver (f t0) l) S)).
    rewrite IH, <- sumOver_add. reflexivity.
Qed.

Lemma sumZ_zeros {B : Type} (S : list B) : sumZ (map (fun _ => 0) S) = 0.
Proof. unfold sumZ. induction S as [|t S IH]; simpl; [done|]. by rewrite IH. Qed.

Lemma sumOver_ext_in (f g : Shipment -> Z) (l : list Shipment) :
  (forall s, In s l -> f s = g s) -> sumOver f l = sumOver g l.
Proof.
  intros H. unfold sumOver. f_equal. apply map_ext_in. exact H.
Qed.

Lemma contribution_over_terminals (S : list string) (i : nat) (s : Shipment) :
  NoDup S ->
  (forall mn t, volumeSlot s = Some (mn, t) -> In t S) ->
  sumZ (map (fun t => volumeContribution t i s) S) = monthVolume i s.
Proof.
  intros Hnd Hin. unfold volumeContribution, monthVolume.
  destruct (monthLabels !! i) as [m|]; [|apply sumZ_zeros].
  destruct (volumeSlot s) as [[mn t']|] eqn:Hslot; [|apply sumZ_zeros].
  destruct (String.eqb mn m && (0 <? containerVolume s)) eqn:E.
  - transitivity (sumZ (map (fun t => if String.eqb t' t then containerVolume s else 0) S)).
    + unfold sumZ. f_equal. apply map_ext. intros t.
      apply andb_prop in E as [-> ->]. by destruct (String.eqb t' t).
    + rewrite sum_single by done.
      assert (existsb (String.eqb t') S = true) as ->; [|done].
      apply existsb_exists. exists t'. split; [by eapply Hin|apply String.eqb_refl].
  - transitivity (sumZ (map (fun _ : string => 0) S)); [|apply sumZ_zeros].
    unfold sumZ. f_equal. apply map_ext. intros t.
    destruct (String.eqb mn m), (String.eqb t' t), (0 <? containerVolume s);
      simpl in *; congruence.
Qed.

End CargoVolumeTotals.

(** X23. The chart of cargo volume has a bar for each month from July to
    December, and its total is the sum of the container volumes of the
    records whose ETA falls in that month, over all terminals. *)
Theorem cargo_volume_totals {host : Host} (ships : list Shipment) (i : nat)
    (Hkeys : plainTerminals ships = true) (Hi : (i < 6)%nat) :
  VerticalBarChart.totals (CargosInTransitDashboard.cargoVolumeDataStack ships) !! i =
  Some (sumOver (monthVolume i) ships).
Proof.
  set (d := CargosInTransitDashboard.cargoVolumeDataStack ships).
  set (S := sortStrings (foldl terminalsStep [] ships)).
  assert (Hd : CargosInTransitDashboard.labels d = CargosInTransitDashboard.monthLabels /\
               exists mk, (forall x, CargosInTransitDashboard.datasetLabel (mk x) = x) /\
                          CargosInTransitDashboard.datasets d = map mk S).
  { unfold d, CargosInTransitDashboard.cargoVolumeDataStack,
      CargosInTransitDashboard.volumeInit.
    rewrite volume_fold_split. split; [reflexivity|].
    eexists. split; [|reflexivity]. done. }
  destruct Hd as (Hlabels & mk & Hmk & Hds).
  rewrite totals_lookup by (rewrite Hlabels; exact Hi). f_equal.
  assert (HS : forall t, In t S <-> In t (foldl terminalsStep [] ships)).
  { intros t. unfold S, sortStrings. rewrite <- !list_elem_of_In.
    by rewrite merge_sort_Permutation. }
  transitivity (sumZ (map (fun t => CargosInTransitDashboard.volumeOf d t i) S)).
  { rewrite Hds, map_map. unfold sumZ. f_equal. apply map_ext_in. intros t Ht.
    unfold CargosInTransitDashboard.volumeOf. rewrite Hds, find_dataset by done.
    assert (existsb (String.eqb t) S = true) as ->.
    { apply existsb_exists. exists t. split; [done|apply String.eqb_refl]. }
    destruct (CargosInTransitDashboard.data (mk t) !! i) as [x|]; [|done].
    simpl. by destruct (Z.eqb_spec x 0). }
  transitivity (sumZ (map (fun t => sumOver (volumeContribution t i) ships) S)).
  { unfold sumZ. f_equal. apply map_ext. intros t. apply cargoVolumeDataStack_sum. }
  rewrite sum_swap. apply sumOver_ext_in. intros s Hs.
  apply contribution_over_terminals.
  - unfold S, sortStrings. rewrite merge_sort_Permutation.
    apply terminals_fold_NoDup, NoDup_nil_2.
  - intros mn t Hslot. apply HS. by eapply terminals_fold_slot.
Qed.

Lemma cargo_volume_totals_witness :
  VerticalBarChart.totals
    (@CargosInTransitDashboard.cargoVolumeDataStack Reference.host exampleRecords) !! 1%nat =
  Some (sumOver (@monthVolume Reference.host 1) exampleRecords).
Proof.
  apply (@cargo_volume_totals Reference.host exampleRecords 1); [reflexivity|lia].
Defined.

(** X24. A record whose ETA falls in a month from January to June changes
    nothing in the chart of cargo volume, wherever it stands among the
    records: no bar, no terminal and no list of records behind a bar. *)
Theorem eta_before_july_not_charted {host : Host} (l1 l2 : list Shipment)
    (s : Shipment) (eta : string) (t : Z)
    (Heta : actualEta s = Some eta) (Hparse : Date_parse eta = Some t)
    (Hmonth : getMonth t < 6) :
  CargosInTransitDashboard.cargoVolumeDataStack (l1 ++ s :: l2) =
  CargosInTransitDashboard.cargoVolumeDataStack (l1 ++ l2).
Proof.
  unfold CargosInTransitDashboard.cargoVolumeDataStack.
  rewrite volume_fold_insert_no_slot; [reflexivity|].
  unfold volumeSlot. rewrite Heta.
  destruct (negb (truthyStr (Some eta))); [done|]. rewrite Hparse.
  by destruct (Z.leb_spec 6 (getMonth t)); [lia|].
Qed.

Lemma eta_before_july_not_charted_witness :
  @CargosInTransitDashboard.cargoVolumeDataStack Reference.host
    ([] ++ cargoShipment "d" (Some "FCL") (Some 4) (Some "CARGO READY") None
                         (Some "2024-03-10") :: exampleRecords) =
  @CargosInTransitDashboard.cargoVolumeDataStack Reference.host ([] ++ exampleRecords).
Proof.
  apply (@eta_before_july_not_charted Reference.host [] exampleRecords
           (cargoShipment "d" (Some "FCL") (Some 4) (Some "CARGO READY") None
                          (Some "2024-03-10"))
           "2024-03-10" 1710028800000).
  - reflexivity.
  - reflexivity.
  - vm_compute. reflexivity.
Defined.

(** ** Average transit time by incoterm *)

Section AvgTimeByIncoterm.
Context {host : Host}.
Import BrokerageKPIsPage.









End AvgTimeByIncoterm.



(** ** Columns of the import that fill two properties *)











(** X27. The chart of cargo volume shows "No data" exactly when no record
    has an ETA in a month from July to December; a record that has one
    brings its terminal into the chart also when it counts for no
    container. *)
Theorem cargo_volume_no_data {host : Host} (ships : list Shipment)
    (Hkeys : plainTerminals ships = true) :
  VerticalBarChart.noData (CargosInTransitDashboard.cargoVolumeDataStack ships) = true <->
  forall s, In s ships -> volumeSlot s = None.
Proof.
  assert (Hds : exists mk,
            CargosInTransitDashboard.datasets
              (CargosInTransitDashboard.cargoVolumeDataStack ships) =
            map mk (sortStrings (foldl terminalsStep [] ships))).
  { unfold CargosInTransitDashboard.cargoVolumeDataStack,
      CargosInTransitDashboard.volumeInit.
    rewrite volume_fold_split. eexists. reflexivity. }
  destruct Hds as (mk & Hds). unfold VerticalBarChart.noData. rewrite Hds.
  unfold len. rewrite length_map, Z.eqb_eq.
  unfold sortStrings. rewrite merge_sort_Permutation. split.
  - intros Hlen s Hs. destruct (volumeSlot s) as [[mn t]|] eqn:Hslot; [|done].
    pose proof (terminals_fold_slot ships [] s mn t Hs Hslot) as Hin.
    destruct (foldl terminalsStep [] ships); [done|simpl in Hlen; lia].
  - intros Hnone.
    assert (H : foldl terminalsStep [] ships = []); [|by rewrite H].
    clear Hds Hkeys. induction ships as [|s l IH] using rev_ind; [done|].
    rewrite foldl_app. cbn [foldl]. rewrite IH.
    + unfold terminalsStep. rewrite Hnone; [done|].
      apply in_or_app. right. by left.
    + intros x Hx. apply Hnone, in_or_app. by left.
Qed.

Lemma cargo_volume_no_data_witness :
  VerticalBarChart.noData
    (@CargosInTransitDashboard.cargoVolumeDataStack Reference.host
       [cargoShipment "d" (Some "FCL") (Some 4) (Some "CARGO READY") None
                      (Some "2024-03-10")]) = true.
Proof.
  apply (@cargo_volume_no_data Reference.host
           [cargoShipment "d" (Some "FCL") (Some 4) (Some "CARGO READY") None
                          (Some "2024-03-10")]); [reflexivity|].
  intros s [<-|[]]. reflexivity.
Defined.
